(** * Capture-and-transport pipeline of the realtime transcription front end

    A shallow embedding of
      - [src/lib/websocket.ts]             (class [AudioTranscriptionService])
      - [src/components/AudioRecorder.tsx] (the [handleAudioProcess] handler)
    and the properties of the pipeline that the specification states.

    Conventions of the embedding.
      - JavaScript numbers that the code only uses as integers (counters,
        delays, sample values, byte counts) are [Z]; every such value stays
        far below 2^53, where doubles are exact.  The two places where the
        code really computes with fractions (the RMS and the voice-energy
        ratio of a frame) use binary64 primitive floats, which is what a
        JavaScript number is.
      - The single-threaded event loop is modelled by explicit state passing:
        every handler is a function on the state it can reach through
        [this] or through its closure.  Where an [async] function suspends,
        the embedding takes as an argument what the rest of the program did
        (or what the network answered) during the suspension.
      - [console.*] calls have no effect on the program and are omitted. *)

From Stdlib Require Import ZArith List Bool String Ascii Lia PrimFloat Uint63.
From Stdlib Require Import Strings.Byte.
Import ListNotations.
Open Scope string_scope.
Open Scope list_scope.
Open Scope Z_scope.

(** Decimal literals such as 0.15 denote the nearest double, as they do in
    JavaScript. *)
#[global] Set Warnings "-inexact-float".

(** ** Browser primitives *)

Module Browser.

(** *** Timers: [setTimeout] / [clearTimeout] *)

Definition TimerId := nat.

(** The callbacks this program hands to [setTimeout] and whose identifier
    it keeps (in a field, a ref or a closure variable). *)
Inductive TimerAction : Type :=
| ConnectionTimeout   (* websocket.ts, connect, line 80  *)
| ReconnectCallback   (* websocket.ts, attemptReconnect, line 179 *)
| SilenceCountdown.   (* AudioRecorder.tsx, handleAudioProcess, line 565 *)

Record Timer : Type := mkTimer {
  timer_id : TimerId;
  timer_delay : Z;               (* milliseconds *)
  timer_action : TimerAction
}.

(** The timer table of the page: the timers that are armed and have
    neither fired nor been cleared, and the next fresh identifier
    (identifiers are positive, hence truthy). *)
Record TimerTable : Type := mkTimerTable {
  pending : list Timer;
  next_id : TimerId
}.

Definition no_timers : TimerTable := mkTimerTable [] 1%nat.

Definition setTimeout (action : TimerAction) (delay : Z) (t : TimerTable)
  : TimerId * TimerTable :=
  (next_id t,
   mkTimerTable (pending t ++ [mkTimer (next_id t) delay action])
                (S (next_id t))).

Definition clearTimeout (id : TimerId) (t : TimerTable) : TimerTable :=
  mkTimerTable
    (filter (fun x => negb (Nat.eqb (timer_id x) id)) (pending t))
    (next_id t).

Definition is_pending (id : TimerId) (t : TimerTable) : bool :=
  existsb (fun x => Nat.eqb (timer_id x) id) (pending t).

(** *** ArrayBuffer and the Int16Array view *)

Definition ArrayBuffer := list byte.

Definition byteLength (b : ArrayBuffer) : Z := Z.of_nat (List.length b).

Definition byte_to_Z (b : byte) : Z := Z.of_N (Byte.to_N b).

Definition byte_of_Z (z : Z) : byte :=
  match Byte.of_N (Z.to_N (z mod 256)) with
  | Some b => b
  | None => x00
  end.

(** Two's complement reading of a 16-bit pattern. *)
Definition toInt16 (u : Z) : Z :=
  let m := u mod 65536 in
  if m <? 32768 then m else m - 65536.

(** The elements of [new Int16Array(buffer)], little-endian as on every
    platform the page runs on.  The constructor raises a [RangeError] when
    the byte length is odd: [None]. *)
Fixpoint Int16Array_of_buffer (b : ArrayBuffer) : option (list Z) :=
  match b with
  | [] => Some []
  | lo :: hi :: rest =>
      match Int16Array_of_buffer rest with
      | Some l => Some (toInt16 (byte_to_Z lo + 256 * byte_to_Z hi) :: l)
      | None => None
      end
  | [_] => None
  end.

(** [int16Array.buffer]: the bytes behind an Int16Array holding [l]. *)
Fixpoint buffer_of_Int16Array (l : list Z) : ArrayBuffer :=
  match l with
  | [] => []
  | x :: rest =>
      byte_of_Z (x mod 65536) :: byte_of_Z ((x mod 65536) / 256)
        :: buffer_of_Int16Array rest
  end.

Definition is_int16 (x : Z) : Prop := -32768 <= x <= 32767.

(** [Math.max(...xs.map(Math.abs))] on a non-empty array of integers; on
    the empty array JavaScript gives [-Infinity], which the callers below
    never reach (they return on an empty buffer first).  With non-negative
    elements folding from 0 is the maximum.  (An engine bounds the number
    of spread arguments; the frames of this program hold 1024 samples.) *)
Definition maxAbs (xs : list Z) : Z :=
  fold_left (fun m x => Z.max m (Z.abs x)) xs 0.

End Browser.

(** ** The transport session: [src/lib/websocket.ts] *)

Module Transport.
Import Browser.

(** *** Data *)

Inductive ReadyState : Type := CONNECTING | OPEN | CLOSING | CLOSED.

Definition ReadyState_eqb (a b : ReadyState) : bool :=
  match a, b with
  | CONNECTING, CONNECTING | OPEN, OPEN
  | CLOSING, CLOSING | CLOSED, CLOSED => true
  | _, _ => false
  end.

(** What the service reads of the socket it holds in [this.ws]. *)
Record WebSocket : Type := mkWebSocket {
  readyState : ReadyState;
  bufferedAmount : Z
}.

(** Values passed to [JSON.stringify]. *)
#[warnings="-register-all"]
Inductive JSON : Type :=
| JString (s : string)
| JNumber (x : float)
| JBool (b : bool)
| JObject (fields : list (string * JSON)).

(** What is handed to [ws.send]: the JSON value whose text is sent, or a
    binary buffer. *)
Inductive Message : Type :=
| TextMessage (payload : JSON)
| BinaryMessage (data : ArrayBuffer).

Inductive JsError : Type :=
| Error (message : string)
| RangeError
| TypeError
| InvalidStateError.

(** How a call of an [async] function ends. *)
Inductive Completion : Type :=
| Returned
| Thrown (e : JsError).

Inductive PromiseState : Type :=
| Pending
| Resolved
| Rejected (e : JsError).

(** A callback is known by its identity only. *)
Definition Callback := nat.

Record Callbacks : Type := mkCallbacks {
  onOpen : option Callback;
  onClose : option Callback;
  onError : option Callback;
  onTranscription : option Callback
}.

Record TranscriptionOptions : Type := mkOptions {
  opt_onOpen : option Callback;
  opt_onClose : option Callback;
  opt_onError : option Callback;
  opt_onTranscription : option Callback;
  opt_language : option string;
  opt_model : option string
}.

(** [private config = { language: 'zh', model: 'tiny' }] *)
Record Config : Type := mkConfig {
  language : string;
  model : string
}.

(** Calls the service makes out of itself, in order. *)
Inductive Event : Type :=
| OnOpenCalled (cb : Callback)
| OnErrorCalled (cb : Callback) (message : string)
| SocketCloseCalled.                 (* [ws.close()] *)

(** The fields of [AudioTranscriptionService], then what the page holds
    for it: the timer table, everything handed to [ws.send] without an
    exception (the outbound channel, oldest first) and the calls made. *)
Record Service : Type := mkService {
  ws : option WebSocket;
  callbacks : Callbacks;
  config : Config;
  reconnectAttempts : Z;
  reconnectTimer : option TimerId;
  isReconnecting : bool;
  timers : TimerTable;
  outbox : list Message;
  log : list Event
}.

(** [maxReconnectAttempts] and [reconnectDelay] are private fields with an
    initialiser and no assignment anywhere in the class. *)
Definition maxReconnectAttempts : Z := 5.
Definition reconnectDelay : Z := 1000.

Definition initial : Service :=
  mkService None (mkCallbacks None None None None) (mkConfig "zh" "tiny")
            0 None false no_timers [] [].

Definition set_ws v s :=
  mkService v (callbacks s) (config s) (reconnectAttempts s)
            (reconnectTimer s) (isReconnecting s) (timers s) (outbox s) (log s).
Definition set_callbacks v s :=
  mkService (ws s) v (config s) (reconnectAttempts s)
            (reconnectTimer s) (isReconnecting s) (timers s) (outbox s) (log s).
Definition set_config v s :=
  mkService (ws s) (callbacks s) v (reconnectAttempts s)
            (reconnectTimer s) (isReconnecting s) (timers s) (outbox s) (log s).
Definition set_reconnectAttempts v s :=
  mkService (ws s) (callbacks s) (config s) v
            (reconnectTimer s) (isReconnecting s) (timers s) (outbox s) (log s).
Definition set_reconnectTimer v s :=
  mkService (ws s) (callbacks s) (config s) (reconnectAttempts s)
            v (isReconnecting s) (timers s) (outbox s) (log s).
Definition set_isReconnecting v s :=
  mkService (ws s) (callbacks s) (config s) (reconnectAttempts s)
            (reconnectTimer s) v (timers s) (outbox s) (log s).
Definition set_timers v s :=
  mkService (ws s) (callbacks s) (config s) (reconnectAttempts s)
            (reconnectTimer s) (isReconnecting s) v (outbox s) (log s).
Definition ws_send (m : Message) s :=
  mkService (ws s) (callbacks s) (config s) (reconnectAttempts s)
            (reconnectTimer s) (isReconnecting s) (timers s)
            (outbox s ++ [m]) (log s).
Definition emit (e : Event) s :=
  mkService (ws s) (callbacks s) (config s) (reconnectAttempts s)
            (reconnectTimer s) (isReconnecting s) (timers s) (outbox s)
            (log s ++ [e]).

(** [this.ws && this.ws.readyState === WebSocket.OPEN] *)
Definition ws_is_open (s : Service) : bool :=
  match ws s with
  | Some sock => ReadyState_eqb (readyState sock) OPEN
  | None => false
  end.

(** *** [attemptReconnect] (lines 155-194) *)

(** [Math.min(this.reconnectDelay * Math.pow(2, this.reconnectAttempts - 1), 30000)],
    taken after the increment, so the exponent is never negative. *)
Definition backoffDelay (attempts : Z) : Z :=
  Z.min (reconnectDelay * 2 ^ (attempts - 1)) 30000.

Definition attemptReconnect (s : Service) : Service :=
  if isReconnecting s then s
  else if maxReconnectAttempts <=? reconnectAttempts s then
    match onError (callbacks s) with
    | Some cb => emit (OnErrorCalled cb "WebSocket重连失败") s
    | None => s
    end
  else
    let s := set_isReconnecting true s in
    let s := set_reconnectAttempts (reconnectAttempts s + 1) s in
    let delay := backoffDelay (reconnectAttempts s) in
    let s := match reconnectTimer s with
             | Some id => set_timers (clearTimeout id (timers s)) s
             | None => s
             end in
    let (id, tt) := setTimeout ReconnectCallback delay (timers s) in
    set_reconnectTimer (Some id) (set_timers tt s).

(** *** [connect] (lines 47-153) *)

(** The variables of one [connect] call that its socket handlers close
    over. *)
Record ConnectClosure : Type := mkConnectClosure {
  connectionTimeoutId : TimerId;
  configSent : bool
}.

(** The test of [if (options.language)] and [if (options.model)]: an
    absent option and the empty string are falsy. *)
Definition truthy (o : option string) : option string :=
  match o with
  | Some "" => None
  | other => other
  end.

(** The synchronous part of [connect], up to the installation of the
    socket handlers.  [ctor] is the exception of [new WebSocket(url)], if
    it raises one.  The result is the promise as [connect] leaves it;
    a pending one is settled by the socket handlers. *)
Definition connect (options : TranscriptionOptions) (ctor : option JsError)
           (s : Service) : Service * option ConnectClosure * PromiseState :=
  if isReconnecting s then (s, None, Resolved)
  else
    let s := match ws s with
             | Some _ => set_ws None (emit SocketCloseCalled s)
             | None => s
             end in
    let s := set_callbacks
               (mkCallbacks (opt_onOpen options) (opt_onClose options)
                            (opt_onError options) (opt_onTranscription options)) s in
    let s := match truthy (opt_language options) with
             | Some l => set_config (mkConfig l (model (config s))) s
             | None => s
             end in
    let s := match truthy (opt_model options) with
             | Some m => set_config (mkConfig (language (config s)) m) s
             | None => s
             end in
    match ctor with
    | Some e => (attemptReconnect s, None, Rejected e)
    | None =>
        let s := set_ws (Some (mkWebSocket CONNECTING 0)) s in
        let (id, tt) := setTimeout ConnectionTimeout 5000 (timers s) in
        (set_timers tt s, Some (mkConnectClosure id false), Pending)
    end.

(** *** [sendConfig] (lines 236-321) *)

(** The message of lines 256-269. *)
Definition config_payload (c : Config) : JSON :=
  JObject [("language", JString (language c));
           ("model", JString (model c));
           ("noise_suppression", JBool false);
           ("enable_realtime_transcription", JBool true);
           ("use_main_model_for_realtime", JBool true);
           ("realtime_model_type", JString "tiny");
           ("realtime_processing_pause", JNumber 0.2);
           ("stabilization_window", JNumber 2);
           ("match_threshold", JNumber 10)].

Definition config_message (c : Config) : Message :=
  TextMessage (JObject [("event", JString "config");
                        ("config", config_payload c)]).

(** [obj[key]] of a JSON object. *)
Definition json_field (key : string) (j : JSON) : option JSON :=
  match j with
  | JObject fields =>
      match find (fun kv => String.eqb (fst kv) key) fields with
      | Some kv => Some (snd kv)
      | None => None
      end
  | _ => None
  end.

Definition json_keys (j : JSON) : list string :=
  match j with
  | JObject fields => map fst fields
  | _ => []
  end.

(** What happens to one pass of the retry loop (lines 272-316). *)
Inductive AttemptOutcome : Type :=
| SendThrows (e : JsError)
    (* [this.ws.send] raises: the socket is gone or not yet open *)
| Acknowledged
    (* a [config_updated] / [config_received] message arrives before the
       5000 ms timer fires: [messageHandler] resolves the promise *)
| TimedOut.
    (* the 5000 ms timer fires first *)

(** What [sendConfig] observes of the socket and the server while it is
    suspended: whether [this.ws?.readyState === WebSocket.OPEN] holds at
    the i-th poll of [waitForConnection] (polls are 500 ms apart), and the
    outcome of each pass of the retry loop.  The fields of the service are
    read where the message is built (lines 256-269), that is when the call
    resumes after [await waitForConnection()]: [sendConfig] below takes
    the service as it is then. *)
Record HandshakeObs : Type := mkHandshakeObs {
  ready_at : nat -> bool;
  outcome : Z -> AttemptOutcome
}.

(** [waitForConnection(maxAttempts = 10)]: the index of the poll that
    found the socket open, or [None] when the loop ends and the function
    throws. *)
Fixpoint waitForConnection (ready : nat -> bool) (i remaining : nat)
  : option nat :=
  match remaining with
  | O => None
  | S n => if ready i then Some i else waitForConnection ready (S i) n
  end.

(** [for (let attempt = 1; attempt <= 3; attempt++)], over the attempt
    numbers still to run.  In the timer callback of lines 279-287 a
    time-out of an attempt other than the third calls [resolve()], after
    which line 307 returns from [sendConfig]; a time-out of the third
    calls [reject], and the [catch] of line 309 rethrows.  After a failed
    [send] the loop sleeps [1000 * attempt] ms and goes on. *)
Fixpoint handshake (attempts : list Z) (msg : Message) (obs : HandshakeObs)
         (s : Service) : Service * Completion :=
  match attempts with
  | [] => (s, Returned)
  | attempt :: rest =>
      match outcome obs attempt with
      | SendThrows e =>
          if attempt =? 3 then (s, Thrown e)
          else handshake rest msg obs s
      | Acknowledged => (ws_send msg s, Returned)
      | TimedOut =>
          if attempt =? 3 then (ws_send msg s, Thrown (Error "配置发送超时"))
          else (ws_send msg s, Returned)
      end
  end.

(** [sendConfig] from the point where it resumes after
    [await waitForConnection()], on the service as it is then.  The test
    of line 250 sees the socket as the poll that ended the wait saw it. *)
Definition sendConfig (obs : HandshakeObs) (s : Service)
  : Service * Completion :=
  match waitForConnection (ready_at obs) 0 10 with
  | None => (s, Thrown (Error "等待WebSocket连接就绪超时"))
  | Some i =>
      if negb (ready_at obs i) then (s, Thrown (Error "WebSocket未连接"))
      else handshake [1; 2; 3] (config_message (config s)) obs s
  end.

(** *** The [onopen] handler installed by [connect] (lines 93-114) *)

Definition ws_onopen (cl : ConnectClosure) (obs : HandshakeObs) (s : Service)
  : Service * ConnectClosure * PromiseState :=
  let s := set_timers (clearTimeout (connectionTimeoutId cl) (timers s)) s in
  let s := set_reconnectAttempts 0 s in
  let s := set_isReconnecting false s in
  let s := match onOpen (callbacks s) with
           | Some cb => emit (OnOpenCalled cb) s
           | None => s
           end in
  (* await 500 ms, then the handshake *)
  match sendConfig obs s with
  | (s', Returned) =>
      (s', mkConnectClosure (connectionTimeoutId cl) true, Resolved)
  | (s', Thrown _) => (s', cl, Resolved)
  end.

(** *** [sendAudioData] (lines 323-367) *)

(** [this.ws.send(data)] on the socket as it is then: a [TypeError] when
    [this.ws] is null, an [InvalidStateError] while the socket is
    connecting, transmission when it is open; a closing or closed socket
    takes the data and discards it. *)
Definition socket_send (m : Message) (s : Service) : Service * Completion :=
  match ws s with
  | None => (s, Thrown TypeError)
  | Some sock =>
      match readyState sock with
      | CONNECTING => (s, Thrown InvalidStateError)
      | OPEN => (ws_send m s, Returned)
      | CLOSING | CLOSED => (s, Returned)
      end
  end.

(** The service as [sendAudioData] finds it at line 341.  The function
    suspends for 100 ms when the buffered amount is above 1 MiB (lines
    336-339); [during_wait] is what the other handlers of the page do to
    the service meanwhile. *)
Definition after_backpressure (during_wait : Service -> Service)
           (s : Service) : Service :=
  match ws s with
  | Some sock => if 1024 * 1024 <? bufferedAmount sock
                 then during_wait s else s
  | None => s
  end.

Definition sendAudioData (audioData : ArrayBuffer)
           (during_wait : Service -> Service) (s : Service)
  : Service * Completion :=
  match ws s with
  | None => (s, Thrown (Error "WebSocket未连接"))
  | Some sock =>
      if negb (ReadyState_eqb (readyState sock) OPEN)
      then (s, Thrown (Error "WebSocket未连接"))
      else if byteLength audioData =? 0 then (s, Returned)
      else
        let s := after_backpressure during_wait s in
        match Int16Array_of_buffer audioData with
        | None => (s, Thrown RangeError)
        | Some view =>
            if maxAbs view <? 100 then (s, Returned)
            else socket_send (BinaryMessage audioData) s
        end
  end.

(** *** [updateConfig] (lines 369-373) *)

(** The promise of [sendConfig] is dropped by the caller; it is returned
    here to be looked at. *)
Definition updateConfig (language model : string) (obs : HandshakeObs)
           (s : Service) : Service * Completion :=
  let s := set_config (mkConfig language (Transport.model (config s))) s in
  let s := set_config (mkConfig (Transport.language (config s)) model) s in
  sendConfig obs s.

(** [sendConfig] is an [async] function.  Its call polls the socket a
    first time and suspends at line 249; the test of line 250 and the
    message of lines 256-269 are evaluated when it resumes, after the rest
    of the calling task and, when the first poll did not find the socket
    open, after whatever ran during the 500 ms waits.  Up to there the
    call has assigned nothing, so the service [sendConfig obs] is applied
    to is the service as the continuation finds it.  [updateConfig] above
    applies it to the service as its two assignments leave it: nothing
    else writes the service before the continuation runs.
    [updateConfig_then] is the call in general, [meanwhile] being what the
    code that runs before the continuation does to the service. *)
Definition updateConfig_assigns (language model : string) (s : Service)
  : Service :=
  let s := set_config (mkConfig language (Transport.model (config s))) s in
  set_config (mkConfig (Transport.language (config s)) model) s.

Definition updateConfig_then (language model : string)
           (meanwhile : Service -> Service) (obs : HandshakeObs)
           (s : Service) : Service * Completion :=
  sendConfig obs (meanwhile (updateConfig_assigns language model s)).

(** *** [disconnect] (lines 375-388) *)

Definition disconnect (s : Service) : Service :=
  let s := match reconnectTimer s with
           | Some id =>
               set_reconnectTimer None
                 (set_timers (clearTimeout id (timers s)) s)
           | None => s
           end in
  let s := set_isReconnecting false s in
  let s := set_reconnectAttempts 0 s in
  match ws s with
  | Some _ => set_ws None (emit SocketCloseCalled s)
  | None => s
  end.


(** *** The other handlers installed by [connect] and [attemptReconnect] *)

(** [ws.close()] on the socket held in [this.ws], which stays in the
    field: a connecting or open socket starts closing, a closing or closed
    one is left as it is. *)
Definition ws_close (s : Service) : Service :=
  match ws s with
  | Some sock =>
      emit SocketCloseCalled
           (set_ws (Some (mkWebSocket
                            match readyState sock with
                            | CONNECTING | OPEN => CLOSING
                            | st => st
                            end
                            (bufferedAmount sock))) s)
  | None => s
  end.

(** The callback of the connection timer (lines 80-91), run when the timer
    of [cl] fires; a timer that is not pending does not fire.  The second
    component is the error the callback rejects the promise of [connect]
    with, if it does. *)
Definition connectionTimeout_fires (cl : ConnectClosure) (s : Service)
  : Service * option JsError :=
  if is_pending (connectionTimeoutId cl) (timers s) then
    let s := set_timers (clearTimeout (connectionTimeoutId cl) (timers s)) s in
    if ws_is_open s then (s, None)
    else (attemptReconnect (ws_close s), Some (Error "WebSocket连接超时"))
  else (s, None).

(** The [onclose] handler (lines 116-131).  The second component is the
    [onClose] callback it calls, if one is registered. *)
Definition ws_onclose (cl : ConnectClosure) (wasClean : bool) (s : Service)
  : Service * option Callback :=
  (if negb (configSent cl) || negb wasClean then attemptReconnect s else s,
   onClose (callbacks s)).

(** The [onerror] handler (lines 133-143). *)
Definition ws_onerror (s : Service) : Service :=
  match onError (callbacks s) with
  | Some cb => emit (OnErrorCalled cb "WebSocket连接错误") s
  | None => s
  end.

(** The argument of the [connect] call of lines 181-188. *)
Definition own_options (s : Service) : TranscriptionOptions :=
  mkOptions (onOpen (callbacks s)) (onClose (callbacks s))
            (onError (callbacks s)) (onTranscription (callbacks s))
            (Some (language (config s))) (Some (model (config s))).

(** The callback of the reconnect timer (lines 179-193), run when timer
    [id] fires, up to the point where its [await this.connect(...)]
    suspends or completes.  A [connect] that rejects at once is caught
    there (lines 189-192); a promise left pending may be rejected later by
    the connection timer, and [reconnect_rejected] is what the [catch]
    does then. *)
Definition reconnectCallback_fires (id : TimerId) (ctor : option JsError)
           (s : Service) : Service * option ConnectClosure * PromiseState :=
  if is_pending id (timers s) then
    let s := set_timers (clearTimeout id (timers s)) s in
    match connect (own_options s) ctor s with
    | (s', cl, Rejected e) => (set_isReconnecting false s', cl, Rejected e)
    | settled_or_pending => settled_or_pending
    end
  else (s, None, Pending).

Definition reconnect_rejected (s : Service) : Service :=
  set_isReconnecting false s.


(** *** [handleMessage] (lines 196-234) *)

(** A JavaScript value as far as the inbound path looks at it: it tests
    values for truthiness, compares the discriminant with string literals
    and passes the rest on. *)
#[warnings="-register-all"]
Inductive Value : Type :=
| VUndefined
| VNull
| VBool (b : bool)
| VNumber (x : float)
| VString (s : string)
| VArray (elements : list Value)
| VObject.                         (* any other object *)

Definition isNaN (x : float) : bool := negb (PrimFloat.eqb x x).

(** [if (v)], [v || other]. *)
Definition truthyValue (v : Value) : bool :=
  match v with
  | VUndefined | VNull => false
  | VBool b => b
  | VNumber x => negb (PrimFloat.eqb x 0 || isNaN x)
  | VString "" => false
  | VString _ => true
  | VArray _ | VObject => true
  end.

(** The properties of a parsed message that the handler reads; a property
    the message does not have reads as [VUndefined]. *)
Record MessageData : Type := mkMessageData {
  event : Value;
  text : Value;
  refined_text : Value;
  translation : Value;
  timestamp : Value;
  message : Value
}.

(** [JSON.parse(event.data)]. *)
Inductive Inbound : Type :=
| Unparsable                  (* [JSON.parse] throws *)
| ParsedNull                  (* [data.event] throws *)
| ParsedPrimitive             (* a number, string or boolean: no property *)
| Parsed (data : MessageData). (* an object or an array *)

(** [new Error(v)]: an error object whose message is [String(v)], and
    the empty string when [v] is [undefined]. *)
Inductive ErrorObject : Type :=
| NewError (v : Value).

(** The message of [new Error(v)] for the values whose conversion to a
    string is a constant or the value itself; the conversion of numbers,
    arrays and other objects is not written out. *)
Definition errorMessage (e : ErrorObject) : option string :=
  match e with
  | NewError VUndefined => Some ""
  | NewError VNull => Some "null"
  | NewError (VBool true) => Some "true"
  | NewError (VBool false) => Some "false"
  | NewError (VString s) => Some s
  | NewError (VNumber _) | NewError (VArray _) | NewError VObject => None
  end.

(** A call of a registered callback by [handleMessage]. *)
Inductive Delivery : Type :=
| TranscriptionDelivered (cb : Callback)
                         (text refinedText translation timestamp : Value)
| ErrorReported (cb : Callback) (error : ErrorObject).

Definition eventIs (name : string) (data : MessageData) : bool :=
  match event data with
  | VString s => String.eqb s name
  | _ => false
  end.

(** The handler assigns no field of the service; its effect is the calls
    it makes.  Everything thrown inside is caught and logged. *)
Definition handleMessage (s : Service) (m : Inbound) : list Delivery :=
  match m with
  | Unparsable | ParsedNull | ParsedPrimitive => []
  | Parsed data =>
      match (if eventIs "transcription" data && truthyValue (text data)
             then onTranscription (callbacks s) else None) with
      | Some cb =>
          [TranscriptionDelivered cb (text data) (refined_text data)
                                  (translation data) (timestamp data)]
      | None =>
          if eventIs "error" data then
            match onError (callbacks s) with
            | Some cb => [ErrorReported cb (NewError (message data))]
            | None => []
            end
          else []
      end
  end.


(** *** What the browser does to the socket held in [this.ws] *)

(** The connection is established: [readyState] becomes [OPEN], then the
    [open] event is dispatched. *)
Definition socket_opened (s : Service) : Service :=
  match ws s with
  | Some sock => set_ws (Some (mkWebSocket OPEN (bufferedAmount sock))) s
  | None => s
  end.

(** The connection fails or is lost: [readyState] becomes [CLOSED], then
    the [error] and [close] events are dispatched. *)
Definition socket_lost (s : Service) : Service :=
  match ws s with
  | Some sock => set_ws (Some (mkWebSocket CLOSED (bufferedAmount sock))) s
  | None => s
  end.

End Transport.

(** ** The capture handler: [src/components/AudioRecorder.tsx] *)

Module Recorder.
Import Browser.

Inductive NoiseFilterLevel : Type := off | low | medium | high.

Definition NoiseFilterLevel_eqb (a b : NoiseFilterLevel) : bool :=
  match a, b with
  | off, off | low, low | medium, medium | high, high => true
  | _, _ => false
  end.

(** The values of the [useState] bindings that [handleAudioProcess] reads.
    They are [const] bindings of one call of the component function: a
    handler built in a render sees the values of that render for as long
    as it lives. *)
Record Render : Type := mkRender {
  isConnected : bool;
  noiseFilterLevel : NoiseFilterLevel;
  autoPauseAfterSilence : bool;
  silenceTimerActive : bool;
  useRNNoise : bool
}.

(** *** Frame statistics (lines 453-461 and 498-526)

    The handler is embedded from the point where [int16Array] is filled;
    the quantisation of the Float32 input (lines 446-451) is not part of
    the model. *)

(** An integer of the Int16 range (or an array length) as a JavaScript
    number. *)
Definition toNumber (z : Z) : float :=
  if z <? 0 then PrimFloat.opp (PrimFloat.of_uint63 (Uint63.of_Z (- z)))
  else PrimFloat.of_uint63 (Uint63.of_Z z).

(** [max] of lines 455-460. *)
Definition maxAmplitude (int16Array : list Z) : Z :=
  fold_left (fun max x => if max <? Z.abs x then Z.abs x else max)
            int16Array 0.

(** [sumOfSquares] of lines 499-502. *)
Definition sumOfSquares (int16Array : list Z) : float :=
  fold_left (fun acc x => PrimFloat.add acc
                            (PrimFloat.mul (toNumber x) (toNumber x)))
            int16Array 0%float.

(** [Math.sqrt(sumOfSquares / int16Array.length)] *)
Definition rms (int16Array : list Z) : float :=
  PrimFloat.sqrt
    (PrimFloat.div (sumOfSquares int16Array)
                   (toNumber (Z.of_nat (List.length int16Array)))).

Definition voiceFreqMin : Z := 5.
Definition voiceFreqMax : Z := 25.

(** The loop of lines 517-524 from index [i] on:
    [(voiceRangeEnergy, totalEnergy)]. *)
Fixpoint energies (int16Array : list Z) (i : Z)
         (voiceRangeEnergy totalEnergy : float) : float * float :=
  match int16Array with
  | [] => (voiceRangeEnergy, totalEnergy)
  | x :: rest =>
      let energy := PrimFloat.mul (toNumber x) (toNumber x) in
      let totalEnergy := PrimFloat.add totalEnergy energy in
      let voiceRangeEnergy :=
        if (voiceFreqMin <=? i) && (i <=? voiceFreqMax)
        then PrimFloat.add voiceRangeEnergy energy
        else voiceRangeEnergy in
      energies rest (i + 1) voiceRangeEnergy totalEnergy
  end.

(** [voiceRangeEnergy / totalEnergy], the total starting at 1. *)
Definition voiceEnergyRatio (int16Array : list Z) : float :=
  let (voiceRangeEnergy, totalEnergy) := energies int16Array 0 0 1 in
  PrimFloat.div voiceRangeEnergy totalEnergy.

(** *** The keep decision (lines 470-551) *)

Definition volumeThreshold (level : NoiseFilterLevel) : Z :=
  match level with
  | low => 1000
  | medium => 2000
  | high => 3000
  | off => 0
  end.

Definition rmsThreshold (level : NoiseFilterLevel) : float :=
  match level with
  | low => 300
  | medium => 500
  | high => 800
  | off => 0
  end.

(** [noiseFilterLevel === 'high' ? 0.25 : 0.15] *)
Definition voiceRatioThreshold (level : NoiseFilterLevel) : float :=
  match level with
  | high => 0.25
  | _ => 0.15
  end.

(** The value of [isLikelyVoice] when line 553 is reached. *)
Definition isLikelyVoice (cl : Render) (int16Array : list Z) : bool :=
  let max := maxAmplitude int16Array in
  if negb (useRNNoise cl) && negb (NoiseFilterLevel_eqb (noiseFilterLevel cl) off)
  then
    let level := noiseFilterLevel cl in
    let isLikelyVoice :=
      (volumeThreshold level <? max)
      || PrimFloat.ltb (rmsThreshold level) (rms int16Array) in
    let hasSignificantVoiceFreq :=
      PrimFloat.ltb (voiceRatioThreshold level)
                    (voiceEnergyRatio int16Array) in
    if NoiseFilterLevel_eqb level high
    then isLikelyVoice && hasSignificantVoiceFreq
    else if hasSignificantVoiceFreq then true else isLikelyVoice
  else if useRNNoise cl then 500 <? max
  else true.

(** *** The component's mutable state *)

(** Refs ([useRef]) are shared by every render; a [bool] ref field says
    whether [.current] holds an object.  [hooks] is the React state as the
    setters have left it: the next render reads it, the handlers already
    built do not.  [timers] are the timers this component armed. *)
Record Recorder : Type := mkRecorder {
  silenceCounterRef : Z;
  silenceTimerRef : option TimerId;
  processorRef : bool;
  workletNodeRef : bool;
  mediaStreamRef : bool;
  audioContextRef : bool;
  animationFrameRef : bool;
  isRecording : bool;
  hooks : Render;
  timers : TimerTable;
  service : Transport.Service
}.

Definition set_silenceCounterRef v r :=
  mkRecorder v (silenceTimerRef r) (processorRef r) (workletNodeRef r)
             (mediaStreamRef r) (audioContextRef r) (animationFrameRef r)
             (isRecording r) (hooks r) (timers r) (service r).
Definition set_silenceTimerRef v r :=
  mkRecorder (silenceCounterRef r) v (processorRef r) (workletNodeRef r)
             (mediaStreamRef r) (audioContextRef r) (animationFrameRef r)
             (isRecording r) (hooks r) (timers r) (service r).
Definition set_hooks v r :=
  mkRecorder (silenceCounterRef r) (silenceTimerRef r) (processorRef r)
             (workletNodeRef r) (mediaStreamRef r) (audioContextRef r)
             (animationFrameRef r) (isRecording r) v (timers r) (service r).
Definition set_timers v r :=
  mkRecorder (silenceCounterRef r) (silenceTimerRef r) (processorRef r)
             (workletNodeRef r) (mediaStreamRef r) (audioContextRef r)
             (animationFrameRef r) (isRecording r) (hooks r) v (service r).
Definition set_service v r :=
  mkRecorder (silenceCounterRef r) (silenceTimerRef r) (processorRef r)
             (workletNodeRef r) (mediaStreamRef r) (audioContextRef r)
             (animationFrameRef r) (isRecording r) (hooks r) (timers r) v.

Definition setSilenceTimerActive (v : bool) (r : Recorder) : Recorder :=
  set_hooks (mkRender (isConnected (hooks r)) (noiseFilterLevel (hooks r))
                      (autoPauseAfterSilence (hooks r)) v
                      (useRNNoise (hooks r))) r.

(** [stopRecording] (lines 403-437): the capture resources are released
    ([processorRef] only together with a live audio context, line 412) and
    the recording flag is lowered. *)
Definition stopRecording (r : Recorder) : Recorder :=
  mkRecorder (silenceCounterRef r) (silenceTimerRef r)
             (if processorRef r && audioContextRef r then false
              else processorRef r)
             false false false false false (hooks r) (timers r) (service r).

(** *** [handleAudioProcess] (lines 440-607) on a filled [int16Array]

    [cl] holds the state values of the render that built this handler.
    [during_wait] is passed on to [sendAudioData]; an exception of the
    send is caught and logged (lines 599-603). *)
Definition handleAudioProcess (cl : Render) (int16Array : list Z)
           (during_wait : Transport.Service -> Transport.Service)
           (r : Recorder) : Recorder :=
  let isLikelyVoice := isLikelyVoice cl int16Array in
  let r :=
    if autoPauseAfterSilence cl then
      if negb isLikelyVoice then
        let r := set_silenceCounterRef (silenceCounterRef r + 1) r in
        if (50 <? silenceCounterRef r) && negb (silenceTimerActive cl) then
          let r := setSilenceTimerActive true r in
          let (id, tt) := setTimeout SilenceCountdown 3000 (timers r) in
          set_silenceTimerRef (Some id) (set_timers tt r)
        else r
      else
        let r := set_silenceCounterRef 0 r in
        match silenceTimerRef r with
        | Some id =>
            if silenceTimerActive cl then
              setSilenceTimerActive false
                (set_silenceTimerRef None
                   (set_timers (clearTimeout id (timers r)) r))
            else r
        | None => r
        end
    else r in
  if negb isLikelyVoice then r
  else if negb (isConnected cl) then r
  else
    set_service
      (fst (Transport.sendAudioData (buffer_of_Int16Array int16Array)
                                    during_wait (service r))) r.

(** The callback of the countdown (lines 565-569), run when timer [id]
    fires; a timer that is not pending does not fire. *)
Definition silenceCountdown_fires (id : TimerId) (r : Recorder) : Recorder :=
  if is_pending id (timers r) then
    let r := set_timers (clearTimeout id (timers r)) r in
    setSilenceTimerActive false (stopRecording r)
  else r.

(** The effect of lines 139-144, run after a render in which [language],
    [modelType], [targetLanguage] or [isConnected] changed:
    [audioTranscriptionService.updateConfig(language, modelType, targetLanguage)].
    [updateConfig(language, model)] declares two parameters, so the call
    binds the first two arguments and drops the third. *)
Definition updateConfig_effect (language modelType targetLanguage : string)
           (obs : Transport.HandshakeObs) (r : Recorder) : Recorder :=
  if isConnected (hooks r) then
    set_service
      (fst (Transport.updateConfig language modelType obs (service r))) r
  else r.

(** [processor.onaudioprocess = handleAudioProcess] (lines 361, 376, 384)
    is executed once per recording, inside [startRecording]; renders that
    follow build new handlers which nothing installs.  One recording is
    therefore one handler, with the state values of the render that
    started it, run over the frames the processor delivers. *)
Definition installed_handler (r : Recorder) : Render := hooks r.

Definition record_frames (frames : list (list Z)) (r : Recorder) : Recorder :=
  let cl := installed_handler r in
  fold_left (fun r frame => handleAudioProcess cl frame (fun s => s) r)
            frames r.


(** *** Acquiring the capture stream (lines 256-328 of [startRecording]) *)

Inductive AudioSource : Type := microphone | system | both.

(** A stream is known by its audio tracks (the capture asks for no
    video). *)
Definition Track := nat.
Definition MediaStream := list Track.

(** [new MediaStream([t1, t2])]: a [TypeError] when an element is not a
    track ([undefined], from indexing an empty track list). *)
Definition MediaStream_of (tracks : list (option Track)) : option MediaStream :=
  if forallb (fun t => match t with Some _ => true | None => false end) tracks
  then Some (flat_map (fun t => match t with Some x => [x] | None => [] end)
                      tracks)
  else None.

(** The stream [startRecording] stores in [mediaStreamRef], or [None] when
    an exception leaves the [try] of line 248 (the recording does not
    start).  [userMedia] and [displayMedia] are what [getUserMedia] and
    [getDisplayMedia] answer when asked: a stream, or [None] when the
    request is rejected. *)
Definition acquireStream (audioSource : AudioSource)
           (userMedia displayMedia : option MediaStream)
  : option MediaStream :=
  let wantsMicrophone :=
    match audioSource with microphone | both => true | system => false end in
  let wantsSystem :=
    match audioSource with system | both => true | microphone => false end in
  (* lines 260-272; the inner option is the variable, [None] for null *)
  let microphoneStep : option (option MediaStream) :=
    if wantsMicrophone then
      match userMedia with
      | Some stream => Some (Some stream)
      | None => None
      end
    else Some None in
  match microphoneStep with
  | None => None
  | Some microphoneStream =>
      (* lines 274-316 *)
      let systemStep : option (option MediaStream) :=
        if wantsSystem then
          match displayMedia with
          | None =>
              (* rejected before the assignment; line 312 *)
              match microphoneStream with
              | Some _ => Some None
              | None => None
              end
          | Some stream =>
              match stream with
              | [] =>
                  (* assigned, then line 302 throws; line 312 *)
                  match microphoneStream with
                  | Some _ => Some (Some stream)
                  | None => None
                  end
              | _ :: _ => Some (Some stream)
              end
          end
        else Some None in
      match systemStep with
      | None => None
      | Some systemAudioStream =>
          (* lines 318-326 *)
          match microphoneStream, systemAudioStream with
          | Some mic, Some sys => MediaStream_of [hd_error mic; hd_error sys]
          | Some mic, None => Some mic
          | None, Some sys => Some sys
          | None, None => None   (* no source asks for neither stream *)
          end
      end
  end.


(** *** [handleTranscriptionResult] (lines 68-96)

    The callback the component registers as [onTranscription]: it hands
    the four arguments to the parent's [onTranscriptionResult] when
    [isMountedRef.current] is true and the prop is a function; an
    exception of the parent is caught.  [Parent] is the state the parent's
    callback acts on. *)

(** [const isMountedRef = useRef<boolean>(true)] (line 43).  The component
    reads [isMountedRef.current] at line 74 and assigns it nowhere: the
    value the guard sees is the initial one. *)
Definition isMountedRef : bool := true.

Definition handleTranscriptionResult {Parent : Type} (isMounted : bool)
           (onTranscriptionResult :
              option (Transport.Value -> Transport.Value -> Transport.Value
                      -> Transport.Value -> Parent -> Parent))
           (text refinedText translation timestamp : Transport.Value)
           (parent : Parent) : Parent :=
  if isMounted then
    match onTranscriptionResult with
    | Some callback => callback text refinedText translation timestamp parent
    | None => parent
    end
  else parent.

End Recorder.

(** ** The noise-suppressor worklet: [NoiseSuppressorWorklet.process] *)

Module Worklet.

(** Samples are the numbers read from and written to a [Float32Array];
    the processor only copies them or writes 0. *)
Definition Channel := list float.

Definition NOISE_THRESHOLD : float := 0.01.

(** The body of the gating loop for one sample. *)
Definition gate (x : float) : float :=
  if PrimFloat.ltb (PrimFloat.abs x) NOISE_THRESHOLD then 0%float else x.

(** [for (i = 0; i < input.length; i++) output[i] = f(input[i])]: a write
    past the end of a typed array is ignored, and the samples of [output]
    past the length of [input] are left as they are. *)
Fixpoint write_samples (f : float -> float) (input output : Channel)
  : Channel :=
  match input, output with
  | x :: xs, _ :: os => f x :: write_samples f xs os
  | _, os => os
  end.

Inductive ProcessResult : Type :=
| KeepAlive (outputs : list (list Channel))   (* [return true] *)
| Raised.                                     (* a [TypeError] *)

(** [process(inputs, outputs)] with [this._initialized = initialized];
    the result holds [outputs] as the call leaves them. *)
Definition process (initialized : bool)
           (inputs outputs : list (list Channel)) : ProcessResult :=
  match inputs with
  | [] => KeepAlive outputs
  | [] :: _ => KeepAlive outputs
  | (input :: _) :: _ =>
      match outputs with
      | [] => Raised                       (* [outputs[0][0]] of undefined *)
      | [] :: _ => KeepAlive outputs       (* [!output] *)
      | (output :: channels) :: others =>
          let f := if initialized then gate else (fun x => x) in
          KeepAlive ((write_samples f input output :: channels) :: others)
      end
  end.

End Worklet.

(** ** Text statistics: [src/lib/textUtils.ts] *)

Module TextUtils.

(** A JavaScript string is its sequence of UTF-16 code units. *)
Definition JsString := list Z.

(** The class [\u4e00-\u9fa5] on one code unit. *)
Definition isChinese (u : Z) : bool := (0x4e00 <=? u) && (u <=? 0x9fa5).

(** The punctuation class of lines 20 and 26: the full-width comma, full
    stop, exclamation mark, question mark, semicolon, colon, the ASCII
    double and single quotes, the full-width parentheses and the
    ideographic comma. *)
Definition isPunctuation (u : Z) : bool :=
  existsb (Z.eqb u)
          [0xff0c; 0x3002; 0xff01; 0xff1f; 0xff1b; 0xff1a; 0x22; 0x27;
           0xff08; 0xff09; 0x3001].

(** [\s]: the white space and line terminator code points. *)
Definition isWhiteSpace (u : Z) : bool :=
  existsb (Z.eqb u)
          [0x09; 0x0a; 0x0b; 0x0c; 0x0d; 0x20; 0xa0; 0x1680; 0x2028; 0x2029;
           0x202f; 0x205f; 0x3000; 0xfeff]
  || ((0x2000 <=? u) && (u <=? 0x200a)).

(** The class of the [replace] of line 26: the two classes above in one
    bracket. *)
Definition isChineseOrPunctuation (u : Z) : bool :=
  isChinese u || isPunctuation u.

Definition isHighSurrogate (u : Z) : bool := (0xd800 <=? u) && (u <=? 0xdbff).
Definition isLowSurrogate (u : Z) : bool := (0xdc00 <=? u) && (u <=? 0xdfff).

(** [Array.from(text)]: the string split by code points, a surrogate pair
    being one element. *)
Fixpoint codePoints (text : JsString) : list JsString :=
  match text with
  | [] => []
  | hi :: rest =>
      match rest with
      | lo :: rest' =>
          if isHighSurrogate hi && isLowSurrogate lo
          then [hi; lo] :: codePoints rest'
          else [hi] :: codePoints rest
      | [] => [[hi]]
      end
  end.

(** [regex.test(char)] for a class without anchors: some code unit of the
    string is in the class. *)
Definition test (class : Z -> bool) (s : JsString) : bool := existsb class s.

(** [s.split(/\s+/)]: the pieces between the maximal runs of white space,
    the empty pieces before a leading run and after a trailing one
    included.  [current] holds the piece being read, reversed; [inRun]
    says that the previous unit was white space. *)
Fixpoint split_whitespace (inRun : bool) (current : JsString) (s : JsString)
  : list JsString :=
  match s with
  | [] => [rev current]
  | u :: rest =>
      if isWhiteSpace u then
        if inRun then split_whitespace true current rest
        else rev current :: split_whitespace true [] rest
      else split_whitespace false (u :: current) rest
  end.

Definition split (s : JsString) : list JsString := split_whitespace false [] s.

Definition nonEmpty (s : JsString) : bool :=
  match s with [] => false | _ :: _ => true end.

(** [calculateTokens] (lines 9-31). *)
Definition calculateTokens (text : JsString) : Z :=
  match text with
  | [] => 0
  | _ :: _ =>
      let chars := codePoints text in
      let chineseAndPunctuationCount :=
        Z.of_nat (List.length
                    (filter (fun char => test isChinese char
                                         || test isPunctuation char)
                            chars)) in
      let nonChineseText :=
        map (fun u => if isChineseOrPunctuation u then 0x20 else u) text in
      let words := filter nonEmpty (split nonChineseText) in
      chineseAndPunctuationCount + Z.of_nat (List.length words)
  end.

(** [calculateCharacters] (lines 36-39). *)
Definition calculateCharacters (text : JsString) : Z :=
  match text with
  | [] => 0
  | _ :: _ =>
      Z.of_nat (List.length (filter (fun u => negb (isWhiteSpace u)) text))
  end.

Record TextStatistics : Type := mkTextStatistics {
  textCount : Z;
  totalCharacters : Z;
  totalTokens : Z
}.

(** [calculateTextStatistics] (lines 53-63); [reduce] folds from the
    left. *)
Definition calculateTextStatistics (texts : list JsString) : TextStatistics :=
  mkTextStatistics
    (Z.of_nat (List.length texts))
    (fold_left (fun sum text => sum + calculateCharacters text) texts 0)
    (fold_left (fun sum text => sum + calculateTokens text) texts 0).

End TextUtils.

(** ** The page that shows the results: [src/pages/index.tsx] *)

Module Home.
Import Transport.

(** The result arrays of the page (lines 15-18 and 34-38), one entry per
    delivered transcription. *)
Record Results : Type := mkResults {
  transcriptions : list Value;
  refinedTranscriptions : list Value;
  translations : list Value;
  timestamps : list Value;
  isKeywordMatches : list Value;
  isContinuations : list Value;
  continuationReasons : list Value;
  matchedKeywordsList : list Value;
  matchReasons : list Value
}.

Definition noResults : Results := mkResults [] [] [] [] [] [] [] [] [].

(** [v || other] *)
Definition orElse (v other : Value) : Value :=
  if truthyValue v then v else other.

(** [handleTranscriptionResult] (lines 41-62).  The updaters
    [prev => [...prev, x]] run in the order of the calls; [now] is the
    value of [Date.now() / 1000]. *)
Definition handleTranscriptionResult (now : float)
           (text refinedText translation timestamp isKeywordMatch
            isContinuation continuationReason matchedKeywords matchReason
            : Value)
           (st : Results) : Results :=
  mkResults
    (transcriptions st ++ [text])
    (refinedTranscriptions st ++ [orElse refinedText (VString "")])
    (translations st ++ [orElse translation (VString "")])
    (timestamps st ++ [orElse timestamp (VNumber now)])
    (isKeywordMatches st ++ [orElse isKeywordMatch (VBool false)])
    (isContinuations st ++ [orElse isContinuation (VBool false)])
    (continuationReasons st ++ [orElse continuationReason (VString "")])
    (matchedKeywordsList st ++ [orElse matchedKeywords (VArray [])])
    (matchReasons st ++ [orElse matchReason (VString "")]).

(** The prop [onTranscriptionResult={handleTranscriptionResult}] (line 319)
    as the recorder calls it: with four arguments, the other five
    parameters being [undefined]. *)
Definition onTranscriptionResult (now : float)
           (text refinedText translation timestamp : Value)
           (st : Results) : Results :=
  handleTranscriptionResult now text refinedText translation timestamp
                            VUndefined VUndefined VUndefined VUndefined
                            VUndefined st.

(** One inbound message through the service, the recorder and the page.
    The recorder's [onError] callback touches its own connection state
    only. *)
Definition receive (s : Service)
           (m : Inbound) (now : float) (st : Results) : Results :=
  fold_left
    (fun st delivery =>
       match delivery with
       | TranscriptionDelivered _ text refinedText translation timestamp =>
           Recorder.handleTranscriptionResult
             Recorder.isMountedRef (Some (onTranscriptionResult now))
             text refinedText translation timestamp st
       | ErrorReported _ _ => st
       end)
    (handleMessage s m) st.

(** The messages of a session in the order of receipt, each with the clock
    reading at its arrival. *)
Definition receive_all (s : Service)
           (ms : list (Inbound * float)) (st : Results) : Results :=
  fold_left (fun st m => receive s (fst m) (snd m) st) ms st.


(** The data of a message when it is a transcription event with a truthy
    text, the only messages that reach the page. *)
Definition transcriptionData (m : Inbound) : list MessageData :=
  match m with
  | Parsed data =>
      if eventIs "transcription" data && truthyValue (text data)
      then [data] else []
  | _ => []
  end.

(** The transcriptions among the messages of a session, each with the
    clock reading at its arrival. *)
Definition transcriptionsOf (ms : list (Inbound * float))
  : list (MessageData * float) :=
  flat_map (fun m => map (fun d => (d, snd m)) (transcriptionData (fst m)))
           ms.

(** Every result array has one entry per transcription. *)
Definition aligned (st : Results) : Prop :=
  let n := List.length (transcriptions st) in
  List.length (refinedTranscriptions st) = n
  /\ List.length (translations st) = n
  /\ List.length (timestamps st) = n
  /\ List.length (isKeywordMatches st) = n
  /\ List.length (isContinuations st) = n
  /\ List.length (continuationReasons st) = n
  /\ List.length (matchedKeywordsList st) = n
  /\ List.length (matchReasons st) = n.

End Home.

(** ** Concrete states and inputs used by the examples below *)

Module Scenario.
Import Browser Transport Recorder.

(** A service whose socket is open, with an error callback registered. *)
Definition connected : Service :=
  mkService (Some (mkWebSocket OPEN 0))
            (mkCallbacks (Some 1%nat) (Some 2%nat) (Some 3%nat) (Some 4%nat))
            (mkConfig "zh" "tiny") 0 None false no_timers [] [].

(** The socket was lost after four scheduled reconnections, none is
    pending. *)
Definition four_attempts_made : Service :=
  mkService None
            (mkCallbacks (Some 1%nat) (Some 2%nat) (Some 3%nat) (Some 4%nat))
            (mkConfig "zh" "tiny") 4 (Some 4%nat) false
            (mkTimerTable [] 5%nat) [] [].

(** The fifth reconnection has just been scheduled: the counter is at
    [maxReconnectAttempts] and the timer is pending. *)
Definition fifth_attempt_pending : Service :=
  attemptReconnect four_attempts_made.

(** The counter is at [maxReconnectAttempts] and nothing is pending. *)
Definition exhausted : Service :=
  mkService None
            (mkCallbacks (Some 1%nat) (Some 2%nat) (Some 3%nat) (Some 4%nat))
            (mkConfig "zh" "tiny") 5 (Some 5%nat) false
            (mkTimerTable [] 6%nat) [] [].

(** The same state of a caller that registered no callback. *)
Definition exhausted_without_callbacks : Service :=
  set_callbacks (mkCallbacks None None None None) exhausted.

(** The server never acknowledges a configuration message. *)
Definition never_acknowledged : HandshakeObs :=
  mkHandshakeObs (fun _ => true) (fun _ => TimedOut).

Definition acknowledged_at_once : HandshakeObs :=
  mkHandshakeObs (fun _ => true) (fun _ => Acknowledged).

(** One frame of the script processor: 1024 samples. *)
Definition silent_frame : list Z := repeat 0 1024.
Definition loud_frame : list Z := repeat 1000 1024.

(** The component right after the user ticked the auto-stop box and
    pressed the record button while connected: default hooks otherwise
    (RNNoise on, level medium, no countdown active). *)
Definition recording_with_auto_stop : Recorder :=
  mkRecorder 0 None true true true true true true
             (mkRender true medium true false true)
             no_timers connected.

Definition heuristic_high : Render := mkRender true high false false false.

(** A frame with peak 29999 and RMS about 988 whose energy in the voice
    band (the sample at index 5) is a tenth of the total:
    1 + 29999^2 + 243^2 + 30^2 + 7^2 + 10000^2 = 10 * 10000^2. *)
Definition loud_frame_with_tenth_in_band : list Z :=
  [29999; 243; 30; 7; 0; 10000] ++ repeat 0 1018.

End Scenario.

(** * Properties of the transport session *)

Module TransportFacts.
Import Browser Transport.

(** ** Timer table *)

Lemma clearTimeout_not_pending (id : TimerId) (t : TimerTable) :
  is_pending id (clearTimeout id t) = false.
Proof.
  unfold is_pending, clearTimeout; cbn [pending].
  induction (pending t) as [|x l IH]; cbn; [reflexivity|].
  destruct (Nat.eqb (timer_id x) id) eqn:E; cbn; [exact IH|].
  now rewrite E, IH.
Qed.

(** ** Backoff *)

Lemma backoffDelay_monotone (n m : Z) :
  1 <= n <= m -> backoffDelay n <= backoffDelay m.
Proof.
  intros H. unfold backoffDelay, reconnectDelay.
  apply Z.min_le_compat_r, Z.mul_le_mono_nonneg_l; [lia|].
  apply Z.pow_le_mono_r; lia.
Qed.

Lemma backoffDelay_capped (n : Z) : backoffDelay n <= 30000.
Proof. unfold backoffDelay. apply Z.le_min_r. Qed.

(** C1.  The n-th reconnection (the call of [attemptReconnect] that moves
    the counter from n-1 to n, for 1 <= n <= maxReconnectAttempts, with no
    reconnection pending) arms exactly one new timer, for the reconnect
    callback, with delay min(1000 * 2^(n-1), 30000) ms, and keeps its
    identifier in [reconnectTimer]; the delay never decreases as n grows
    and never exceeds the cap. *)
Theorem attemptReconnect_backoff (s : Service) (n : Z) :
  1 <= n <= maxReconnectAttempts ->
  isReconnecting s = false ->
  reconnectAttempts s = n - 1 ->
  let s' := attemptReconnect s in
  let kept := match reconnectTimer s with
              | Some old => clearTimeout old (timers s)
              | None => timers s
              end in
  reconnectAttempts s' = n
  /\ isReconnecting s' = true
  /\ reconnectTimer s' = Some (next_id (timers s))
  /\ pending (timers s')
     = pending kept
         ++ [mkTimer (next_id (timers s))
                     (Z.min (1000 * 2 ^ (n - 1)) 30000) ReconnectCallback]
  /\ (forall m, n <= m ->
        Z.min (1000 * 2 ^ (n - 1)) 30000 <= Z.min (1000 * 2 ^ (m - 1)) 30000)
  /\ Z.min (1000 * 2 ^ (n - 1)) 30000 <= 30000.
Proof.
  intros Hn Hrec Hatt. unfold maxReconnectAttempts in Hn.
  cbv zeta. unfold attemptReconnect. rewrite Hrec.
  replace (maxReconnectAttempts <=? reconnectAttempts s) with false
    by (symmetry; apply Z.leb_gt; unfold maxReconnectAttempts; lia).
  cbn [set_isReconnecting set_reconnectAttempts reconnectAttempts
       reconnectTimer timers].
  rewrite Hatt. replace (n - 1 + 1) with n by lia.
  destruct (reconnectTimer s) as [old|];
    cbn; (repeat split; try reflexivity;
          [ intros m Hm; apply (backoffDelay_monotone n m); lia
          | apply Z.le_min_r ]).
Qed.

Lemma attemptReconnect_backoff_third :
  let s' := attemptReconnect
              (mkService None (mkCallbacks None None None None)
                         (mkConfig "zh" "tiny") 2 (Some 2%nat) false
                         (mkTimerTable [] 3%nat) [] []) in
  reconnectAttempts s' = 3
  /\ pending (timers s') = [mkTimer 3%nat 4000 ReconnectCallback].
Proof.
  pose proof (attemptReconnect_backoff
                (mkService None (mkCallbacks None None None None)
                           (mkConfig "zh" "tiny") 2 (Some 2%nat) false
                           (mkTimerTable [] 3%nat) [] []) 3) as H.
  cbv zeta in H.
  destruct H as (H1 & _ & _ & H4 & _);
    [unfold maxReconnectAttempts; lia | reflexivity | reflexivity |].
  split; [exact H1 | exact H4].
Defined.

(** ** Disconnect *)

(** C7.  [disconnect] is idempotent: a second call changes nothing (state,
    timer table, outbound channel and the calls made are those of one
    call), and after one call as after two the reconnect timer is
    cancelled and its field null, the reconnecting flag is false, the
    attempt counter is 0 and the transport handle is null. *)
Theorem disconnect_idempotent (s : Service) :
  disconnect (disconnect s) = disconnect s
  /\ reconnectTimer (disconnect s) = None
  /\ isReconnecting (disconnect s) = false
  /\ reconnectAttempts (disconnect s) = 0
  /\ ws (disconnect s) = None
  /\ match reconnectTimer s with
     | Some id => is_pending id (timers (disconnect s)) = false
     | None => timers (disconnect s) = timers s
     end.
Proof.
  destruct s as [sock cbs cfg attempts timer flag tt out calls].
  destruct timer as [id|], sock as [sock|]; cbn;
    repeat split; apply clearTimeout_not_pending.
Qed.

(** ** Exhausted reconnect policy *)

Lemma handshake_frame (attempts : list Z) (msg : Message)
      (obs : HandshakeObs) (s : Service) :
  fst (handshake attempts msg obs s) = s
  \/ fst (handshake attempts msg obs s) = ws_send msg s.
Proof.
  induction attempts as [|attempt rest IH]; cbn; [now left|].
  destruct (outcome obs attempt); destruct (attempt =? 3); cbn; auto.
Qed.

Lemma sendConfig_frame (obs : HandshakeObs) (s : Service) :
  fst (sendConfig obs s) = s
  \/ fst (sendConfig obs s) = ws_send (config_message (config s)) s.
Proof.
  unfold sendConfig.
  destruct (waitForConnection (ready_at obs) 0 10) as [i|]; [|now left].
  destruct (negb (ready_at obs i)); [now left|].
  apply handshake_frame.
Qed.

Lemma ws_onopen_policy (cl : ConnectClosure) (obs : HandshakeObs)
      (s : Service) :
  reconnectAttempts (fst (fst (ws_onopen cl obs s))) = 0
  /\ isReconnecting (fst (fst (ws_onopen cl obs s))) = false.
Proof.
  unfold ws_onopen.
  set (s0 := match onOpen (callbacks _) with
             | Some cb => emit (OnOpenCalled cb) _
             | None => _
             end).
  assert (H0 : reconnectAttempts s0 = 0 /\ isReconnecting s0 = false)
    by (subst s0; cbn; destruct (onOpen (callbacks s)); cbn; auto).
  destruct (sendConfig_frame obs s0) as [E|E];
    destruct (sendConfig obs s0) as [s' [|e]]; cbn in E |- *;
    subst s'; exact H0.
Qed.

(** C6 (as amended).  When the attempt counter has reached
    maxReconnectAttempts (5), a reconnect request arms no timer and starts
    no connection.  While a reconnection is pending the request is a
    silent no-op: the service is left as it is and nothing is called.
    When none is pending, every field of the service, the timer table and
    the outbound channel are kept, so the state persists over further
    requests, and the only effect is one call of the [onError] callback
    with the reconnect-failure error when one is registered, and nothing
    when none is.  The counter returns to 0 when the socket of a later
    [connect] opens ([connect] alone keeps it), and on [disconnect]. *)
Theorem attemptReconnect_exhausted (s : Service) :
  maxReconnectAttempts <= reconnectAttempts s ->
  let s' := attemptReconnect s in
  (isReconnecting s = true -> s' = s)
  /\ (isReconnecting s = false ->
      timers s' = timers s
      /\ ws s' = ws s
      /\ outbox s' = outbox s
      /\ reconnectTimer s' = reconnectTimer s
      /\ reconnectAttempts s' = reconnectAttempts s
      /\ isReconnecting s' = false
      /\ callbacks s' = callbacks s
      /\ config s' = config s
      /\ log s' = log s ++ match onError (callbacks s) with
                           | Some cb => [OnErrorCalled cb "WebSocket重连失败"]
                           | None => []
                           end
      /\ (onError (callbacks s) = None -> s' = s)
      /\ (forall options, exists s1 cl,
             connect options None s' = (s1, Some cl, Pending)
             /\ reconnectAttempts s1 = reconnectAttempts s
             /\ forall obs,
                  reconnectAttempts (fst (fst (ws_onopen cl obs s1))) = 0)
      /\ reconnectAttempts (disconnect s') = 0).
Proof.
  intros Hmax. cbv zeta. split.
  { intros Hrec. unfold attemptReconnect. now rewrite Hrec. }
  intros Hrec.
  assert (E : attemptReconnect s
              = match onError (callbacks s) with
                | Some cb => emit (OnErrorCalled cb "WebSocket重连失败") s
                | None => s
                end).
  { unfold attemptReconnect. rewrite Hrec.
    now replace (maxReconnectAttempts <=? reconnectAttempts s) with true
      by (symmetry; apply Z.leb_le; exact Hmax). }
  rewrite E. clear E.
  destruct s as [sock cbs cfg attempts timer flag tt out calls].
  cbn in Hrec. subst flag.
  destruct cbs as [o c [cb|] t]; cbn;
    (repeat split; try reflexivity; try (now rewrite app_nil_r);
     try discriminate;
     [ intros options; unfold connect; cbn;
       destruct sock; cbn;
       destruct (truthy (opt_language options));
       destruct (truthy (opt_model options)); cbn;
       eexists; eexists; (split; [reflexivity|]);
       (split; [reflexivity|]); intros obs; apply ws_onopen_policy
     | destruct timer, sock; reflexivity ]).
Qed.

Lemma attemptReconnect_exhausted_example :
  log (attemptReconnect Scenario.exhausted)
    = [OnErrorCalled 3%nat "WebSocket重连失败"]
  /\ timers (attemptReconnect Scenario.exhausted) = timers Scenario.exhausted
  /\ reconnectAttempts (attemptReconnect Scenario.exhausted) = 5
  /\ attemptReconnect Scenario.fifth_attempt_pending
     = Scenario.fifth_attempt_pending.
Proof.
  pose proof (attemptReconnect_exhausted Scenario.exhausted) as H.
  pose proof (attemptReconnect_exhausted Scenario.fifth_attempt_pending) as P.
  cbv zeta in H, P.
  destruct H as (_ & H); [unfold maxReconnectAttempts; cbn; lia|].
  destruct (H eq_refl) as (Ht & _ & _ & _ & Ha & _ & _ & _ & Hl & _).
  destruct P as (P & _); [unfold maxReconnectAttempts; cbn; lia|].
  split; [exact Hl | split; [exact Ht | split; [exact Ha | exact (P eq_refl)]]].
Defined.

(** C6 as it is worded fails in three places.  With a reconnection
    pending: right after the fifth reconnection is scheduled the counter
    is at maxReconnectAttempts and an [onError] callback is registered,
    yet a further reconnect request returns at the first guard, calls
    nothing and leaves the state as it is.  With no callback registered:
    the request of an exhausted service surfaces nothing.  And an explicit
    [connect] does not reset the policy: on the exhausted service it opens
    a socket and keeps the counter at 5, and when that connection times
    out the request to reconnect is refused again, with the
    reconnect-failure error and no timer. *)
Lemma attemptReconnect_exhausted_as_worded_fails :
  (reconnectAttempts Scenario.fifth_attempt_pending = maxReconnectAttempts
   /\ onError (callbacks Scenario.fifth_attempt_pending) = Some 3%nat
   /\ attemptReconnect Scenario.fifth_attempt_pending
      = Scenario.fifth_attempt_pending
   /\ log (attemptReconnect Scenario.fifth_attempt_pending) = [])
  /\ (reconnectAttempts Scenario.exhausted_without_callbacks
      = maxReconnectAttempts
      /\ isReconnecting Scenario.exhausted_without_callbacks = false
      /\ attemptReconnect Scenario.exhausted_without_callbacks
         = Scenario.exhausted_without_callbacks
      /\ log (attemptReconnect Scenario.exhausted_without_callbacks) = [])
  /\ (let started :=
        connect (own_options Scenario.exhausted) None Scenario.exhausted in
      let timed_out :=
        connectionTimeout_fires (mkConnectClosure 6%nat false)
                                (fst (fst started)) in
      snd (fst started) = Some (mkConnectClosure 6%nat false)
      /\ snd started = Pending
      /\ ws (fst (fst started)) = Some (mkWebSocket CONNECTING 0)
      /\ reconnectAttempts (fst (fst started)) = maxReconnectAttempts
      /\ snd timed_out = Some (Error "WebSocket连接超时")
      /\ reconnectAttempts (fst timed_out) = maxReconnectAttempts
      /\ pending (timers (fst timed_out)) = []
      /\ log (fst timed_out)
         = [SocketCloseCalled; OnErrorCalled 3%nat "WebSocket重连失败"]).
Proof. repeat split. Qed.

(** ** Configuration handshake *)

(** C2, evaluated where the server never acknowledges.  The first
    time-out resolves the wait and [sendConfig] returns: the message has
    been handed to the socket once and the call completes normally.
    Whatever the socket and the server do, one call of [sendConfig]
    transmits the configuration message at most once. *)
Theorem sendConfig_timeout_is_not_retried (s : Service) :
  sendConfig Scenario.never_acknowledged s
    = (ws_send (config_message (config s)) s, Returned)
  /\ outbox (fst (sendConfig Scenario.never_acknowledged s))
     = outbox s ++ [config_message (config s)]
  /\ (forall obs,
        outbox (fst (sendConfig obs s)) = outbox s
        \/ outbox (fst (sendConfig obs s))
           = outbox s ++ [config_message (config s)]).
Proof.
  repeat split.
  intros obs. destruct (sendConfig_frame obs s) as [E|E]; rewrite E; auto.
Qed.

(** Whatever the handshake does, the [onopen] handler resolves the promise
    of [connect], keeps [this.ws] and never calls [close]. *)
Lemma ws_onopen_resolves (cl : ConnectClosure) (obs : HandshakeObs)
      (s : Service) :
  snd (ws_onopen cl obs s) = Resolved
  /\ ws (fst (fst (ws_onopen cl obs s))) = ws s
  /\ ~ In SocketCloseCalled
         (skipn (List.length (log s)) (log (fst (fst (ws_onopen cl obs s))))).
Proof.
  unfold ws_onopen.
  set (s0 := match onOpen (callbacks _) with
             | Some cb => emit (OnOpenCalled cb) _
             | None => _
             end).
  assert (H0 : ws s0 = ws s
               /\ ~ In SocketCloseCalled (skipn (List.length (log s)) (log s0))).
  { subst s0; cbn; destruct (onOpen (callbacks s)); cbn; split; trivial.
    - rewrite skipn_app, skipn_all, Nat.sub_diag. cbn. intuition discriminate.
    - rewrite skipn_all. auto. }
  destruct (sendConfig_frame obs s0) as [E|E];
    destruct (sendConfig obs s0) as [s' [|e]]; cbn in E |- *;
    subst s'; (split; [reflexivity | exact H0]).
Qed.

(** ** Outbound audio *)

Lemma byte_to_of_Z (z : Z) : byte_to_Z (byte_of_Z z) = z mod 256.
Proof.
  unfold byte_to_Z, byte_of_Z.
  assert (Hr : 0 <= z mod 256 < 256) by (apply Z.mod_pos_bound; lia).
  destruct (Byte.of_N (Z.to_N (z mod 256))) as [b|] eqn:E.
  - apply Byte.to_of_N in E. rewrite E. apply Z2N.id. lia.
  - apply Byte.of_N_None_iff in E. lia.
Qed.

Lemma toInt16_bytes (x : Z) :
  is_int16 x ->
  toInt16 (byte_to_Z (byte_of_Z (x mod 65536))
           + 256 * byte_to_Z (byte_of_Z ((x mod 65536) / 256))) = x.
Proof.
  unfold is_int16. intros Hx. rewrite !byte_to_of_Z.
  assert (Hu : 0 <= x mod 65536 < 65536) by (apply Z.mod_pos_bound; lia).
  set (u := x mod 65536) in *.
  assert (Hhi : (u / 256) mod 256 = u / 256).
  { apply Z.mod_small. split; [apply Z.div_pos; lia|].
    apply Z.div_lt_upper_bound; lia. }
  rewrite Hhi.
  replace (u mod 256 + 256 * (u / 256)) with u
    by (rewrite (Z.div_mod u 256) at 1; lia).
  unfold toInt16. rewrite (Z.mod_small u) by lia.
  destruct (Z_lt_le_dec x 0) as [Hneg|Hpos].
  - assert (u = x + 65536).
    { subst u. symmetry. apply Z.mod_unique with (q := -1); lia. }
    replace (u <? 32768) with false by (symmetry; apply Z.ltb_ge; lia). lia.
  - assert (u = x) by (subst u; apply Z.mod_small; lia).
    replace (u <? 32768) with true by (symmetry; apply Z.ltb_lt; lia). lia.
Qed.

(** The view over the buffer of an Int16Array holds its elements. *)
Lemma Int16Array_roundtrip (l : list Z) :
  Forall is_int16 l -> Int16Array_of_buffer (buffer_of_Int16Array l) = Some l.
Proof.
  induction 1 as [|x l Hx _ IH]; [reflexivity|].
  cbn [buffer_of_Int16Array Int16Array_of_buffer].
  now rewrite IH, toInt16_bytes.
Qed.

Lemma buffer_of_Int16Array_length (l : list Z) :
  byteLength (buffer_of_Int16Array l) = 2 * Z.of_nat (List.length l).
Proof.
  unfold byteLength. induction l as [|x l IH]; [reflexivity|].
  cbn [buffer_of_Int16Array List.length]. lia.
Qed.

Lemma maxAbs_fold (l : list Z) (m : Z) :
  forall bound, fold_left (fun m x => Z.max m (Z.abs x)) l m < bound
                <-> m < bound /\ forall x, In x l -> Z.abs x < bound.
Proof.
  revert m. induction l as [|y l IH]; intros m bound; cbn.
  - intuition.
  - rewrite IH. split.
    + intros [Hm Hl]. split; [lia|]. intros x [<-|Hx]; [lia|auto].
    + intros [Hm Hl]. split; [specialize (Hl y (or_introl eq_refl)); lia|].
      auto.
Qed.

(** The peak is below a positive bound exactly when every sample is. *)
Lemma maxAbs_below (l : list Z) (bound : Z) :
  0 < bound ->
  (maxAbs l < bound <-> forall x, In x l -> Z.abs x < bound).
Proof. intros Hb. unfold maxAbs. rewrite maxAbs_fold. intuition. Qed.

Lemma ws_is_open_inv (s : Service) :
  ws_is_open s = true ->
  exists sock, ws s = Some sock /\ readyState sock = OPEN.
Proof.
  unfold ws_is_open. destruct (ws s) as [sock|]; [|discriminate].
  intros H. exists sock. split; [reflexivity|].
  destruct (readyState sock); (reflexivity || discriminate).
Qed.

(** C9.  For a non-empty frame of 16-bit samples handed to
    [sendAudioData] while the transport is open (at the call and after
    the back-pressure pause, when there is one): a frame whose peak
    absolute amplitude is below 100, that is every sample of which is, is
    dropped, nothing is transmitted and the call returns; any other frame
    is transmitted, as one binary message holding the frame's bytes, and
    the call returns.  The decision reads the frame and the socket only:
    no conditioner verdict is among the arguments. *)
Theorem sendAudioData_amplitude_filter
        (frame : list Z) (during_wait : Service -> Service) (s : Service) :
  frame <> [] ->
  Forall is_int16 frame ->
  ws_is_open s = true ->
  ws_is_open (after_backpressure during_wait s) = true ->
  let audioData := buffer_of_Int16Array frame in
  let s1 := after_backpressure during_wait s in
  (maxAbs frame < 100 <-> forall x, In x frame -> Z.abs x < 100)
  /\ (maxAbs frame < 100 ->
        sendAudioData audioData during_wait s = (s1, Returned))
  /\ (100 <= maxAbs frame ->
        sendAudioData audioData during_wait s
          = (ws_send (BinaryMessage audioData) s1, Returned)
        /\ outbox (fst (sendAudioData audioData during_wait s))
           = outbox s1 ++ [BinaryMessage audioData]).
Proof.
  intros Hne Hrange Hopen Hopen1. cbv zeta.
  split; [apply maxAbs_below; lia|].
  assert (Hlen : (byteLength (buffer_of_Int16Array frame) =? 0) = false).
  { apply Z.eqb_neq. rewrite buffer_of_Int16Array_length.
    destruct frame; [congruence | cbn [List.length]; lia]. }
  assert (E : sendAudioData (buffer_of_Int16Array frame) during_wait s
              = if maxAbs frame <? 100
                then (after_backpressure during_wait s, Returned)
                else socket_send (BinaryMessage (buffer_of_Int16Array frame))
                                 (after_backpressure during_wait s)).
  { unfold sendAudioData.
    destruct (ws_is_open_inv s Hopen) as (sock & Hws & Hst).
    rewrite Hws, Hst. cbn [ReadyState_eqb negb].
    now rewrite Hlen, (Int16Array_roundtrip frame Hrange). }
  rewrite E. split.
  - intros Hlow. now replace (maxAbs frame <? 100) with true
      by (symmetry; apply Z.ltb_lt; exact Hlow).
  - intros Hhigh. replace (maxAbs frame <? 100) with false
      by (symmetry; apply Z.ltb_ge; exact Hhigh).
    unfold socket_send.
    destruct (ws_is_open_inv _ Hopen1) as (sock1 & Hws1 & Hst1).
    rewrite Hws1, Hst1. split; reflexivity.
Qed.

Lemma sendAudioData_amplitude_filter_example :
  sendAudioData (buffer_of_Int16Array [0; -99; 42]) (fun s => s)
                Scenario.connected
    = (Scenario.connected, Returned)
  /\ outbox (fst (sendAudioData (buffer_of_Int16Array [0; -100; 42])
                                (fun s => s) Scenario.connected))
     = [BinaryMessage (buffer_of_Int16Array [0; -100; 42])].
Proof.
  split.
  - refine (proj1 (proj2 (sendAudioData_amplitude_filter
                            [0; -99; 42] (fun s => s) Scenario.connected
                            _ _ _ _)) _);
      solve [ discriminate | reflexivity | vm_compute; lia
            | repeat constructor; unfold is_int16; lia ].
  - refine (proj2 (proj2 (proj2 (sendAudioData_amplitude_filter
                            [0; -100; 42] (fun s => s) Scenario.connected
                            _ _ _ _)) _));
      solve [ discriminate | reflexivity | vm_compute; lia
            | vm_compute; discriminate
            | repeat constructor; unfold is_int16; lia ].
Defined.

(** C10.  A call of [sendAudioData] with a zero-length buffer returns
    without transmitting and without throwing whenever the transport is
    open, whatever the buffered amount; it throws, the not-connected
    error, exactly when the transport is not open.  The service is left
    as it was in both cases. *)
Theorem sendAudioData_empty_buffer
        (audioData : ArrayBuffer) (during_wait : Service -> Service)
        (s : Service) :
  byteLength audioData = 0 ->
  sendAudioData audioData during_wait s
    = (s, if ws_is_open s then Returned
          else Thrown (Error "WebSocket未连接")).
Proof.
  intros Hlen. unfold sendAudioData, ws_is_open.
  destruct (ws s) as [sock|]; [|reflexivity].
  destruct (ReadyState_eqb (readyState sock) OPEN); cbn [negb];
    [|reflexivity].
  now rewrite Hlen.
Qed.

Lemma sendAudioData_empty_buffer_example :
  sendAudioData [] (fun s => s) Scenario.connected
    = (Scenario.connected, Returned)
  /\ sendAudioData [] (fun s => s) initial
     = (initial, Thrown (Error "WebSocket未连接")).
Proof.
  split.
  - exact (sendAudioData_empty_buffer [] (fun s => s) Scenario.connected
                                      eq_refl).
  - exact (sendAudioData_empty_buffer [] (fun s => s) initial eq_refl).
Defined.

Lemma after_backpressure_undisturbed (s : Service) :
  after_backpressure (fun s => s) s = s.
Proof.
  unfold after_backpressure. destruct (ws s) as [sock|]; [|reflexivity].
  now destruct (1024 * 1024 <? bufferedAmount sock).
Qed.

(** An undisturbed call hands at most its own buffer to the socket. *)
Lemma sendAudioData_outbox (audioData : ArrayBuffer) (s : Service) :
  outbox (fst (sendAudioData audioData (fun s => s) s)) = outbox s
  \/ outbox (fst (sendAudioData audioData (fun s => s) s))
     = outbox s ++ [BinaryMessage audioData].
Proof.
  unfold sendAudioData.
  destruct (ws s) as [sock|] eqn:Hws; [|now left].
  destruct (negb (ReadyState_eqb (readyState sock) OPEN)); [now left|].
  destruct (byteLength audioData =? 0); [now left|].
  rewrite after_backpressure_undisturbed.
  destruct (Int16Array_of_buffer audioData) as [view|]; [|now left].
  destruct (maxAbs view <? 100); [now left|].
  unfold socket_send. rewrite Hws.
  destruct (readyState sock); cbn; auto.
Qed.

End TransportFacts.

(** * Properties of the capture handler *)

Module RecorderFacts.
Import Browser Recorder.

(** ** Keep decision *)

(** The peak of a frame, read off its samples. *)
Lemma maxAmplitude_fold (l : list Z) (m : Z) :
  fold_left (fun max x => if max <? Z.abs x then Z.abs x else max) l m
  = fold_left (fun m x => Z.max m (Z.abs x)) l m.
Proof.
  revert m. induction l as [|x l IH]; intros m; cbn; [reflexivity|].
  rewrite IH. f_equal.
  destruct (Z.ltb_spec m (Z.abs x)); lia.
Qed.

Lemma maxAbs_fold_ge (l : list Z) (m : Z) :
  m <= fold_left (fun m x => Z.max m (Z.abs x)) l m
  /\ (forall x, In x l ->
        Z.abs x <= fold_left (fun m x => Z.max m (Z.abs x)) l m)
  /\ (fold_left (fun m x => Z.max m (Z.abs x)) l m = m
      \/ exists x, In x l
                   /\ Z.abs x = fold_left (fun m x => Z.max m (Z.abs x)) l m).
Proof.
  revert m. induction l as [|y l IH]; intros m; cbn.
  - split; [lia|]. split; [intros x []|now left].
  - destruct (IH (Z.max m (Z.abs y))) as (H1 & H2 & H3).
    split; [lia|]. split.
    + intros x [<-|Hx]; [lia | auto].
    + destruct H3 as [E|(x & Hx & E)].
      * destruct (Z.max_spec m (Z.abs y)) as [[_ Em]|[_ Em]];
          rewrite Em in E |- *.
        -- right. exists y. split; [now left | now rewrite E].
        -- left. exact E.
      * right. exists x. split; [now right | exact E].
Qed.

Lemma maxAmplitude_peak (frame : list Z) :
  (forall x, In x frame -> Z.abs x <= maxAmplitude frame)
  /\ (frame <> [] -> exists x, In x frame /\ Z.abs x = maxAmplitude frame)
  /\ (frame = [] -> maxAmplitude frame = 0).
Proof.
  unfold maxAmplitude. rewrite maxAmplitude_fold.
  destruct (maxAbs_fold_ge frame 0) as (H1 & H2 & H3).
  split; [exact H2|]. split.
  - intros Hne. destruct H3 as [E|H3]; [|exact H3].
    destruct frame as [|x l]; [congruence|].
    exists x. split; [now left|].
    specialize (H2 x (or_introl eq_refl)). lia.
  - now intros ->.
Qed.

(** The peak exceeds a threshold exactly when some sample does. *)
Lemma maxAmplitude_exceeds (frame : list Z) (t : Z) :
  0 <= t ->
  (t <? maxAmplitude frame) = existsb (fun x => t <? Z.abs x) frame.
Proof.
  intros Ht. destruct (maxAmplitude_peak frame) as (Hall & Hsome & Hnil).
  destruct (existsb (fun x => t <? Z.abs x) frame) eqn:E.
  - apply existsb_exists in E. destruct E as (x & Hx & Hlt).
    apply Z.ltb_lt in Hlt. apply Z.ltb_lt.
    specialize (Hall x Hx). lia.
  - apply Z.ltb_ge. destruct frame as [|y l]; [rewrite Hnil; auto|].
    destruct Hsome as (x & Hx & <-); [discriminate|].
    destruct (Z.ltb_spec t (Z.abs x)) as [Hlt|Hge]; [|exact Hge].
    assert (Hex : existsb (fun x => t <? Z.abs x) (y :: l) = true).
    { apply existsb_exists. exists x. split; [exact Hx|].
      now apply Z.ltb_lt. }
    congruence.
Qed.

(** The loop of lines 517-524 adds the energy of every sample to the
    total and that of the samples at indices 5 to 25 to the voice range,
    in the order of the frame. *)
Lemma energies_slice (frame : list Z) (i : Z) (v t : float) :
  0 <= i ->
  energies frame i v t
  = (fold_left (fun acc x => PrimFloat.add acc
                               (PrimFloat.mul (toNumber x) (toNumber x)))
               (firstn (Z.to_nat (26 - Z.max i 5))
                       (skipn (Z.to_nat (5 - i)) frame)) v,
     fold_left (fun acc x => PrimFloat.add acc
                               (PrimFloat.mul (toNumber x) (toNumber x)))
               frame t).
Proof.
  revert i v t. induction frame as [|x rest IH]; intros i v t Hi.
  - cbn. now rewrite skipn_nil, firstn_nil.
  - cbn [energies fold_left]. rewrite IH by lia.
    unfold voiceFreqMin, voiceFreqMax.
    destruct (Z.leb_spec 5 i) as [Hlo|Hlo];
      [destruct (Z.leb_spec i 25) as [Hhi|Hhi]|]; cbn [andb].
    + replace (Z.to_nat (5 - i)) with 0%nat by lia.
      replace (Z.to_nat (5 - (i + 1))) with 0%nat by lia.
      replace (Z.to_nat (26 - Z.max i 5))
        with (S (Z.to_nat (26 - Z.max (i + 1) 5))) by lia.
      reflexivity.
    + replace (Z.to_nat (26 - Z.max i 5)) with 0%nat by lia.
      replace (Z.to_nat (26 - Z.max (i + 1) 5)) with 0%nat by lia.
      reflexivity.
    + replace (Z.to_nat (5 - i)) with (S (Z.to_nat (5 - (i + 1)))) by lia.
      replace (Z.max (i + 1) 5) with (Z.max i 5) by lia.
      reflexivity.
Qed.

(** C3.  In heuristic mode (RNNoise off), for every frame: at level off
    the frame is kept; at level high it is kept exactly when the
    amplitude criterion (peak > 3000 or RMS > 800) and the frequency
    criterion (voice-energy ratio > 0.25) both hold; at levels low and
    medium it is kept exactly when the level's amplitude criterion (peak >
    1000 or RMS > 300, peak > 2000 or RMS > 500) holds or the ratio
    exceeds 0.15.  The peak of these criteria is the largest absolute
    value of a sample of the frame (0 for the empty frame): no sample
    exceeds it, some sample attains it, and it exceeds a threshold exactly
    when some sample does, so that each peak criterion is a condition on
    the samples themselves.  The RMS is the square root of the energy of
    the frame (the sum of the squares of its samples, added up in order in
    binary64) divided by its length, and the ratio is the energy of the
    samples at indices 5 to 25 divided by one plus the energy of the
    frame.  In particular a frame at level high whose RMS is above 800 and
    whose ratio is 0.10 is not kept. *)
Theorem heuristic_keep_decision (cl : Render) (frame : list Z) :
  useRNNoise cl = false ->
  let peak := maxAmplitude frame in
  let ratio := voiceEnergyRatio frame in
  let some_sample_above t := existsb (fun x => t <? Z.abs x) frame in
  let energy start samples :=
    fold_left (fun acc x => PrimFloat.add acc
                              (PrimFloat.mul (toNumber x) (toNumber x)))
              samples start in
  (forall x, In x frame -> Z.abs x <= peak)
  /\ (frame <> [] -> exists x, In x frame /\ Z.abs x = peak)
  /\ (frame = [] -> peak = 0)
  /\ (forall t, 0 <= t -> (t <? peak) = some_sample_above t)
  /\ rms frame
     = PrimFloat.sqrt
         (PrimFloat.div (energy 0%float frame)
                        (toNumber (Z.of_nat (List.length frame))))
  /\ ratio = PrimFloat.div (energy 0%float (firstn 21 (skipn 5 frame)))
                           (energy 1%float frame)
  /\ isLikelyVoice cl frame
     = match noiseFilterLevel cl with
       | off => true
       | low => ((1000 <? peak) || PrimFloat.ltb 300 (rms frame))
                || PrimFloat.ltb 0.15 ratio
       | medium => ((2000 <? peak) || PrimFloat.ltb 500 (rms frame))
                   || PrimFloat.ltb 0.15 ratio
       | high => ((3000 <? peak) || PrimFloat.ltb 800 (rms frame))
                 && PrimFloat.ltb 0.25 ratio
       end
  /\ isLikelyVoice cl frame
     = match noiseFilterLevel cl with
       | off => true
       | low => (some_sample_above 1000 || PrimFloat.ltb 300 (rms frame))
                || PrimFloat.ltb 0.15 ratio
       | medium => (some_sample_above 2000 || PrimFloat.ltb 500 (rms frame))
                   || PrimFloat.ltb 0.15 ratio
       | high => (some_sample_above 3000 || PrimFloat.ltb 800 (rms frame))
                 && PrimFloat.ltb 0.25 ratio
       end
  /\ (noiseFilterLevel cl = high ->
      PrimFloat.ltb 800 (rms frame) = true ->
      ratio = 0.10%float ->
      isLikelyVoice cl frame = false).
Proof.
  intros Hmode. cbv zeta.
  assert (E : isLikelyVoice cl frame
              = match noiseFilterLevel cl with
                | off => true
                | low => ((1000 <? maxAmplitude frame)
                          || PrimFloat.ltb 300 (rms frame))
                         || PrimFloat.ltb 0.15 (voiceEnergyRatio frame)
                | medium => ((2000 <? maxAmplitude frame)
                             || PrimFloat.ltb 500 (rms frame))
                            || PrimFloat.ltb 0.15 (voiceEnergyRatio frame)
                | high => ((3000 <? maxAmplitude frame)
                           || PrimFloat.ltb 800 (rms frame))
                          && PrimFloat.ltb 0.25 (voiceEnergyRatio frame)
                end).
  { unfold isLikelyVoice. rewrite Hmode.
    destruct (noiseFilterLevel cl);
      cbn [negb andb NoiseFilterLevel_eqb volumeThreshold rmsThreshold
           voiceRatioThreshold]; try reflexivity;
      match goal with
      | |- (if ?h then true else ?v) = _ => destruct v, h; reflexivity
      end. }
  destruct (maxAmplitude_peak frame) as (Hall & Hsome & Hnil).
  split; [exact Hall|]. split; [exact Hsome|]. split; [exact Hnil|].
  split; [intros t Ht; now apply maxAmplitude_exceeds|].
  split; [reflexivity|].
  split; [unfold voiceEnergyRatio; now rewrite energies_slice|].
  split; [exact E|]. split.
  - rewrite E.
    rewrite <- !(maxAmplitude_exceeds frame) by lia. reflexivity.
  - intros Hlevel _ Hratio. rewrite E, Hlevel, Hratio.
    apply andb_false_r.
Qed.

Lemma heuristic_keep_decision_example :
  PrimFloat.ltb 800 (rms Scenario.loud_frame_with_tenth_in_band) = true
  /\ voiceEnergyRatio Scenario.loud_frame_with_tenth_in_band
     = 0.10%float
  /\ maxAmplitude Scenario.loud_frame_with_tenth_in_band = 29999
  /\ isLikelyVoice Scenario.heuristic_high
                   Scenario.loud_frame_with_tenth_in_band = false.
Proof.
  assert (Hrms : PrimFloat.ltb 800 (rms Scenario.loud_frame_with_tenth_in_band)
                 = true) by (vm_compute; reflexivity).
  assert (Hratio : voiceEnergyRatio Scenario.loud_frame_with_tenth_in_band
                   = 0.10%float) by (vm_compute; reflexivity).
  split; [exact Hrms | split; [exact Hratio|]].
  split; [vm_compute; reflexivity|].
  pose proof (heuristic_keep_decision
                Scenario.heuristic_high
                Scenario.loud_frame_with_tenth_in_band eq_refl) as H.
  cbv zeta in H.
  destruct H as (_ & _ & _ & _ & _ & _ & _ & _ & H).
  exact (H eq_refl Hrms Hratio).
Defined.

(** ** Dropped frames *)

Lemma gate_keeps_service (cl : Render) (voice : bool) (r : Recorder) :
  service
    (if autoPauseAfterSilence cl then
       if negb voice then
         let r := set_silenceCounterRef (silenceCounterRef r + 1) r in
         if (50 <? silenceCounterRef r) && negb (silenceTimerActive cl) then
           let r := setSilenceTimerActive true r in
           let (id, tt) := setTimeout SilenceCountdown 3000 (timers r) in
           set_silenceTimerRef (Some id) (set_timers tt r)
         else r
       else
         let r := set_silenceCounterRef 0 r in
         match silenceTimerRef r with
         | Some id =>
             if silenceTimerActive cl then
               setSilenceTimerActive false
                 (set_silenceTimerRef None
                    (set_timers (clearTimeout id (timers r)) r))
             else r
         | None => r
         end
     else r)
  = service r.
Proof.
  destruct (autoPauseAfterSilence cl); [|reflexivity].
  destruct voice; cbn [negb].
  - cbn. destruct (silenceTimerRef r); [|reflexivity].
    now destruct (silenceTimerActive cl).
  - cbv zeta.
    now destruct ((50 <? _) && negb (silenceTimerActive cl)).
Qed.

Lemma handleAudioProcess_outbox (cl : Render) (frame : list Z)
      (r : Recorder) :
  let r' := handleAudioProcess cl frame (fun s => s) r in
  Transport.outbox (service r') = Transport.outbox (service r)
  \/ (isLikelyVoice cl frame = true
      /\ Transport.outbox (service r')
         = Transport.outbox (service r)
             ++ [Transport.BinaryMessage (buffer_of_Int16Array frame)]).
Proof.
  cbv zeta. unfold handleAudioProcess.
  pose proof (gate_keeps_service cl (isLikelyVoice cl frame) r) as Hgate.
  cbv zeta in Hgate.
  set (gated := if autoPauseAfterSilence cl then _ else r) in *.
  destruct (isLikelyVoice cl frame); cbn [negb].
  - destruct (isConnected cl); cbn [negb].
    + cbn [service set_service].
      destruct (TransportFacts.sendAudioData_outbox
                  (buffer_of_Int16Array frame) (service gated)) as [E|E];
        rewrite E, Hgate; auto.
    + left. now rewrite Hgate.
  - left. now rewrite Hgate.
Qed.

Lemma handler_trace (cl : Render) (frames : list (list Z)) :
  forall (r : Recorder) (m : Transport.Message),
    In m (Transport.outbox
            (service
               (fold_left
                  (fun r frame => handleAudioProcess cl frame (fun s => s) r)
                  frames r))) ->
    In m (Transport.outbox (service r))
    \/ exists frame,
         In frame frames
         /\ isLikelyVoice cl frame = true
         /\ m = Transport.BinaryMessage (buffer_of_Int16Array frame).
Proof.
  induction frames as [|frame frames IH]; intros r m Hin; cbn in Hin.
  - now left.
  - destruct (IH _ _ Hin) as [Hold|(f & Hf & Hk & Hm)].
    + destruct (handleAudioProcess_outbox cl frame r) as [E|[Hk E]];
        cbv zeta in E; rewrite E in Hold.
      * now left.
      * apply in_app_or in Hold. destruct Hold as [Hold|[<-|[]]].
        -- now left.
        -- right. exists frame. cbn. auto.
    + right. exists f. cbn. auto.
Qed.

(** C4.  A frame whose decision is keep = false is never transmitted:
    the handler returns before the send, so it leaves the transport
    service, and with it the outbound channel, exactly as it was; and
    over any run of frames through one installed handler every message
    that appears on the outbound channel is the buffer of a frame of the
    run whose decision was keep = true. *)
Theorem dropped_frames_are_never_sent (cl : Render) :
  (forall frame during_wait r,
      isLikelyVoice cl frame = false ->
      service (handleAudioProcess cl frame during_wait r) = service r)
  /\ (forall frames r m,
        installed_handler r = cl ->
        In m (Transport.outbox (service (record_frames frames r))) ->
        In m (Transport.outbox (service r))
        \/ exists frame,
             In frame frames
             /\ isLikelyVoice cl frame = true
             /\ m = Transport.BinaryMessage (buffer_of_Int16Array frame)).
Proof.
  split.
  - intros frame during_wait r Hdrop. unfold handleAudioProcess.
    rewrite Hdrop. cbn [negb].
    exact (gate_keeps_service cl false r).
  - intros frames r m <- Hin. unfold record_frames in Hin.
    now apply handler_trace.
Qed.

(** ** Silence auto-stop *)

(** A handler built while no countdown was active never clears a timer:
    every timer pending before a frame is pending after it. *)
Lemma handler_without_flag_never_cancels
      (cl : Render) (frame : list Z)
      (during_wait : Transport.Service -> Transport.Service)
      (r : Recorder) (t : Timer) :
  silenceTimerActive cl = false ->
  In t (pending (timers r)) ->
  In t (pending (timers (handleAudioProcess cl frame during_wait r))).
Proof.
  intros Hflag Hin. unfold handleAudioProcess. rewrite Hflag.
  assert (Hsvc : forall x v, timers (set_service v x) = timers x)
    by reflexivity.
  destruct (autoPauseAfterSilence cl), (isLikelyVoice cl frame),
    (isConnected cl); cbn [negb andb]; cbv zeta;
    rewrite ?Hsvc; cbn;
    try destruct (silenceTimerRef r);
    try destruct (50 <? silenceCounterRef r + 1);
    cbn; rewrite ?Hsvc; cbn; auto using in_or_app.
Qed.

(** A handler built while a countdown was active never arms one. *)
Lemma handler_with_flag_never_arms
      (cl : Render) (frame : list Z)
      (during_wait : Transport.Service -> Transport.Service)
      (r : Recorder) (t : Timer) :
  silenceTimerActive cl = true ->
  In t (pending (timers (handleAudioProcess cl frame during_wait r))) ->
  In t (pending (timers r)).
Proof.
  intros Hflag. unfold handleAudioProcess. rewrite Hflag.
  assert (Hsvc : forall x v, timers (set_service v x) = timers x)
    by reflexivity.
  destruct (autoPauseAfterSilence cl), (isLikelyVoice cl frame),
    (isConnected cl); cbn [negb andb]; cbv zeta;
    rewrite ?Hsvc; cbn;
    try destruct (silenceTimerRef r);
    rewrite ?andb_false_r;
    cbn; rewrite ?Hsvc; cbn; eauto;
    intros H; apply filter_In in H; tauto.
Qed.

(** With the feature disabled the handler neither counts silence nor
    touches a timer or the countdown flag. *)
Lemma auto_stop_disabled_is_inert
      (cl : Render) (frame : list Z)
      (during_wait : Transport.Service -> Transport.Service) (r : Recorder) :
  autoPauseAfterSilence cl = false ->
  let r' := handleAudioProcess cl frame during_wait r in
  silenceCounterRef r' = silenceCounterRef r
  /\ silenceTimerRef r' = silenceTimerRef r
  /\ timers r' = timers r
  /\ hooks r' = hooks r
  /\ isRecording r' = isRecording r.
Proof.
  intros Hoff. cbv zeta. unfold handleAudioProcess. rewrite Hoff.
  destruct (isLikelyVoice cl frame), (isConnected cl); cbn; auto.
Qed.

(** The filter of [sendAudioData] does not follow the conditioner: with
    the heuristic filter at level off the conditioner keeps a silent
    frame, and the transport drops it. *)
Lemma kept_silent_frame_is_dropped_at_transport :
  isLikelyVoice (mkRender true off false false false) Scenario.silent_frame
    = true
  /\ Transport.outbox
       (service (handleAudioProcess (mkRender true off false false false)
                                    Scenario.silent_frame (fun s => s)
                                    Scenario.recording_with_auto_stop))
     = [].
Proof. vm_compute. split; reflexivity. Qed.

(** C5, evaluated on one recording with auto-stop enabled: 51 silent
    frames, then a kept frame.  The 51st silent frame arms the 3000 ms
    countdown.  The kept frame resets the silence counter, but the handler
    still holds [silenceTimerActive = false] of the render that installed
    it, so the guard of line 576 fails: the countdown stays pending, and
    when it fires the recording is stopped. *)
Theorem kept_frame_leaves_countdown_pending :
  let start := Scenario.recording_with_auto_stop in
  let silence := repeat Scenario.silent_frame 51 in
  let armed := record_frames silence start in
  let after := record_frames (silence ++ [Scenario.loud_frame]) start in
  silenceTimerRef (record_frames (repeat Scenario.silent_frame 50) start)
    = None
  /\ silenceTimerRef armed = Some 1%nat
  /\ pending (timers armed) = [mkTimer 1%nat 3000 SilenceCountdown]
  /\ isLikelyVoice (installed_handler start) Scenario.loud_frame = true
  /\ silenceCounterRef after = 0
  /\ silenceTimerRef after = Some 1%nat
  /\ is_pending 1%nat (timers after) = true
  /\ isRecording after = true
  /\ isRecording (silenceCountdown_fires 1%nat after) = false
  /\ processorRef (silenceCountdown_fires 1%nat after) = false.
Proof. vm_compute. repeat split. Qed.

(** ** Configuration updates from the component *)

(** C8, evaluated on the component's update: the message handed to the
    socket holds the nine fields of lines 259-267 and no target language;
    it is the same message whatever target language the caller passes. *)
Theorem updateConfig_omits_target_language
        (language modelType targetLanguage : string)
        (obs : Transport.HandshakeObs) (r : Recorder) :
  updateConfig_effect language modelType targetLanguage obs r
    = updateConfig_effect language modelType "en" obs r
  /\ Transport.json_keys
       (Transport.config_payload (Transport.mkConfig language modelType))
     = ["language"; "model"; "noise_suppression";
        "enable_realtime_transcription"; "use_main_model_for_realtime";
        "realtime_model_type"; "realtime_processing_pause";
        "stabilization_window"; "match_threshold"]
  /\ Transport.json_field "target_language"
       (Transport.config_payload (Transport.mkConfig language modelType))
     = None
  /\ Transport.json_field "targetLanguage"
       (Transport.config_payload (Transport.mkConfig language modelType))
     = None
  /\ Transport.outbox
       (service (updateConfig_effect "zh" "tiny" "ja"
                   Scenario.acknowledged_at_once
                   Scenario.recording_with_auto_stop))
     = [Transport.config_message (Transport.mkConfig "zh" "tiny")]
  /\ ~ In (Transport.JString "ja")
          (match Transport.config_payload (Transport.mkConfig "zh" "tiny")
           with
           | Transport.JObject fields => map snd fields
           | _ => []
           end).
Proof.
  repeat split.
  cbn. intuition discriminate.
Qed.

End RecorderFacts.

(** * Further properties of the transport session *)

Module SessionFacts.
Import Browser Transport.

(** ** Timers *)

Lemma setTimeout_is_pending (action : TimerAction) (delay : Z)
      (t : TimerTable) :
  is_pending (fst (setTimeout action delay t)) (snd (setTimeout action delay t))
  = true.
Proof.
  unfold is_pending, setTimeout; cbn.
  rewrite existsb_app; cbn. now rewrite Nat.eqb_refl, orb_true_r.
Qed.

Lemma clearTimeout_other (id id' : TimerId) (t : TimerTable) :
  id <> id' ->
  is_pending id' (clearTimeout id t) = is_pending id' t.
Proof.
  intros Hne. unfold is_pending, clearTimeout; cbn.
  induction (pending t) as [|x l IH]; [reflexivity|]; cbn.
  destruct (Nat.eqb (timer_id x) id) eqn:E; cbn.
  - apply Nat.eqb_eq in E.
    replace (Nat.eqb (timer_id x) id') with false
      by (symmetry; apply Nat.eqb_neq; congruence).
    exact IH.
  - now rewrite IH.
Qed.

(** ** A scheduled reconnection *)

(** X1.  A reconnection that [attemptReconnect] schedules makes no
    connection when its timer fires on the state the scheduling left: the
    [connect] of the callback returns at its first guard because
    [isReconnecting] is still true.  The only effect is that the fired
    timer leaves the table; no socket is created, no timer armed, nothing
    sent or called, the service stays in the reconnecting state, and there
    a further reconnect request is a no-op as well. *)
Theorem scheduled_reconnect_makes_no_connection
        (s : Service) (ctor : option JsError) :
  isReconnecting s = false ->
  reconnectAttempts s < maxReconnectAttempts ->
  let s1 := attemptReconnect s in
  let id := next_id (timers s) in
  let s2 := fst (fst (reconnectCallback_fires id ctor s1)) in
  reconnectTimer s1 = Some id
  /\ is_pending id (timers s1) = true
  /\ reconnectCallback_fires id ctor s1
     = (set_timers (clearTimeout id (timers s1)) s1, None, Resolved)
  /\ ws s2 = ws s
  /\ outbox s2 = outbox s
  /\ log s2 = log s
  /\ isReconnecting s2 = true
  /\ attemptReconnect s2 = s2.
Proof.
  intros Hflag Hless. cbv zeta.
  destruct s as [sock cbs cfg attempts timer flag tt out calls].
  cbn in Hflag, Hless. subst flag.
  unfold attemptReconnect. cbn [isReconnecting reconnectAttempts].
  replace (maxReconnectAttempts <=? attempts) with false
    by (symmetry; apply Z.leb_gt; exact Hless).
  assert (Hp : forall t, is_pending (next_id t)
                 (snd (setTimeout ReconnectCallback
                                  (backoffDelay (attempts + 1)) t)) = true)
    by (intros t; apply (setTimeout_is_pending ReconnectCallback _ t)).
  destruct timer as [old|]; cbn;
    [ pose proof (Hp (clearTimeout old tt)) as Hp'
    | pose proof (Hp tt) as Hp' ];
    cbn in Hp'; unfold reconnectCallback_fires; cbn; rewrite Hp'; cbn;
    repeat split.
Qed.

Lemma scheduled_reconnect_makes_no_connection_example :
  reconnectCallback_fires 1%nat None (attemptReconnect initial)
  = (set_timers (clearTimeout 1%nat (timers (attemptReconnect initial)))
                (attemptReconnect initial), None, Resolved).
Proof.
  refine (proj1 (proj2 (proj2
            (scheduled_reconnect_makes_no_connection initial None _ _))));
    [reflexivity | unfold maxReconnectAttempts; cbn; lia].
Defined.

(** ** Connecting *)

(** [options.language] as [connect] takes it: kept only when it is a
    non-empty string. *)
Lemma truthy_spec (o : option string) (default : string) :
  match truthy o with Some v => v | None => default end
  = match o with
    | Some v => if String.eqb v "" then default else v
    | None => default
    end.
Proof. destruct o as [[|c v]|]; reflexivity. Qed.

Lemma connect_result (options : TranscriptionOptions) (s : Service) :
  isReconnecting s = false ->
  exists s1,
    connect options None s
    = (s1, Some (mkConnectClosure (next_id (timers s)) false), Pending)
    /\ ws s1 = Some (mkWebSocket CONNECTING 0)
    /\ timers s1 = snd (setTimeout ConnectionTimeout 5000 (timers s))
    /\ log s1 = log s ++ match ws s with
                         | Some _ => [SocketCloseCalled]
                         | None => []
                         end
    /\ reconnectAttempts s1 = reconnectAttempts s
    /\ reconnectTimer s1 = reconnectTimer s
    /\ isReconnecting s1 = false
    /\ outbox s1 = outbox s
    /\ callbacks s1
       = mkCallbacks (opt_onOpen options) (opt_onClose options)
                     (opt_onError options) (opt_onTranscription options)
    /\ language (config s1)
       = match truthy (opt_language options) with
         | Some l => l
         | None => language (config s)
         end
    /\ model (config s1)
       = match truthy (opt_model options) with
         | Some m => m
         | None => model (config s)
         end.
Proof.
  intros Hflag.
  destruct s as [sock cbs cfg attempts timer flag tt out calls].
  cbn in Hflag. subst flag. unfold connect. cbn [isReconnecting].
  destruct sock as [sock|]; cbn;
    destruct (truthy (opt_language options)),
             (truthy (opt_model options)); cbn;
    eexists; (split; [reflexivity|]); cbn;
    rewrite ?app_nil_r; repeat split.
Qed.

(** X2.  [connect] on a service that is reconnecting does nothing and its
    promise resolves at once.  Otherwise (the socket constructor not
    raising) it calls [close] on the socket it held, if any, holds a new
    connecting socket, arms exactly one timer, the 5000 ms connection
    timeout, and leaves the promise pending; it does not touch the
    reconnect counter, the reconnect timer or the outbound channel; it
    replaces the callbacks by those of the options and takes language and
    model from the options only where they are non-empty strings.  Called
    with the service's own callbacks and configuration, as the reconnect
    callback does, it keeps both. *)
Theorem connect_opens_one_socket (options : TranscriptionOptions)
        (s : Service) :
  if isReconnecting s then
    forall ctor, connect options ctor s = (s, None, Resolved)
  else
    exists s1 cl,
      connect options None s = (s1, Some cl, Pending)
      /\ connectionTimeoutId cl = next_id (timers s)
      /\ configSent cl = false
      /\ ws s1 = Some (mkWebSocket CONNECTING 0)
      /\ pending (timers s1)
         = pending (timers s)
             ++ [mkTimer (next_id (timers s)) 5000 ConnectionTimeout]
      /\ log s1 = log s ++ match ws s with
                           | Some _ => [SocketCloseCalled]
                           | None => []
                           end
      /\ reconnectAttempts s1 = reconnectAttempts s
      /\ reconnectTimer s1 = reconnectTimer s
      /\ outbox s1 = outbox s
      /\ callbacks s1
         = mkCallbacks (opt_onOpen options) (opt_onClose options)
                       (opt_onError options) (opt_onTranscription options)
      /\ language (config s1)
         = match opt_language options with
           | Some l => if String.eqb l "" then language (config s) else l
           | None => language (config s)
           end
      /\ model (config s1)
         = match opt_model options with
           | Some m => if String.eqb m "" then model (config s) else m
           | None => model (config s)
           end
      /\ (options = own_options s ->
          callbacks s1 = callbacks s /\ config s1 = config s).
Proof.
  destruct (isReconnecting s) eqn:Hflag.
  - intros ctor. unfold connect. now rewrite Hflag.
  - destruct (connect_result options s Hflag)
      as (s1 & E & Hws & Ht & Hlog & Ha & Hrt & _ & Hout & Hcb & Hl & Hm).
    exists s1, (mkConnectClosure (next_id (timers s)) false).
    rewrite <- !truthy_spec, Ht.
    repeat split; try assumption.
    + rewrite Hcb. subst options. cbn. now destruct (callbacks s).
    + subst options. cbn in Hl, Hm.
      destruct (config s1) as [l1 m1], (config s) as [l0 m0].
      destruct l0, m0; cbn in Hl, Hm; now subst.
Qed.

Lemma sendConfig_keeps (obs : HandshakeObs) (s : Service) :
  let s' := fst (sendConfig obs s) in
  ws s' = ws s /\ timers s' = timers s /\ log s' = log s
  /\ reconnectAttempts s' = reconnectAttempts s
  /\ reconnectTimer s' = reconnectTimer s
  /\ isReconnecting s' = isReconnecting s
  /\ callbacks s' = callbacks s /\ config s' = config s.
Proof.
  cbv zeta.
  destruct (TransportFacts.sendConfig_frame obs s) as [E|E]; rewrite E;
    repeat split.
Qed.

Lemma ws_onopen_timers (cl : ConnectClosure) (obs : HandshakeObs)
      (s : Service) :
  timers (fst (fst (ws_onopen cl obs s)))
  = clearTimeout (connectionTimeoutId cl) (timers s).
Proof.
  unfold ws_onopen.
  set (s0 := match onOpen (callbacks _) with
             | Some cb => emit (OnOpenCalled cb) _
             | None => _
             end).
  assert (H0 : timers s0 = clearTimeout (connectionTimeoutId cl) (timers s))
    by (subst s0; cbn; now destruct (onOpen (callbacks s))).
  destruct (sendConfig_keeps obs s0) as (_ & Ht & _). cbv zeta in Ht.
  destruct (sendConfig obs s0) as [s' [|e]]; cbn in Ht |- *; congruence.
Qed.

(** X3.  A socket that opens disarms the connection timeout of its
    [connect]: the timer armed by [connect] is no longer pending once the
    [onopen] handler has run, whatever the handshake does, so it cannot
    fire and tear the connection down; the handler also resets the
    reconnect policy (counter 0, not reconnecting) and keeps the socket. *)
Theorem open_disarms_connection_timeout
        (options : TranscriptionOptions) (obs : HandshakeObs) (s : Service) :
  isReconnecting s = false ->
  exists s1 cl,
    connect options None s = (s1, Some cl, Pending)
    /\ is_pending (connectionTimeoutId cl) (timers s1) = true
    /\ let s2 := fst (fst (ws_onopen cl obs s1)) in
       is_pending (connectionTimeoutId cl) (timers s2) = false
       /\ connectionTimeout_fires cl s2 = (s2, None)
       /\ ws s2 = ws s1
       /\ reconnectAttempts s2 = 0
       /\ isReconnecting s2 = false.
Proof.
  intros Hflag.
  destruct (connect_result options s Hflag) as (s1 & E & Hws & Ht & _).
  exists s1, (mkConnectClosure (next_id (timers s)) false).
  split; [exact E|]. cbn [connectionTimeoutId].
  split.
  { rewrite Ht. apply (setTimeout_is_pending ConnectionTimeout 5000). }
  cbv zeta.
  set (cl := mkConnectClosure (next_id (timers s)) false).
  assert (Hclear : is_pending (next_id (timers s))
                     (timers (fst (fst (ws_onopen cl obs s1)))) = false).
  { rewrite ws_onopen_timers. apply TransportFacts.clearTimeout_not_pending. }
  split; [exact Hclear|].
  split.
  { unfold connectionTimeout_fires. cbn [connectionTimeoutId cl].
    now rewrite Hclear. }
  split; [apply TransportFacts.ws_onopen_resolves|].
  apply TransportFacts.ws_onopen_policy.
Qed.

Lemma open_disarms_connection_timeout_example :
  exists s1 cl,
    connect (own_options Scenario.exhausted) None Scenario.exhausted
    = (s1, Some cl, Pending)
    /\ is_pending (connectionTimeoutId cl) (timers s1) = true
    /\ is_pending (connectionTimeoutId cl)
         (timers (fst (fst (ws_onopen cl Scenario.never_acknowledged s1))))
       = false.
Proof.
  destruct (open_disarms_connection_timeout
              (own_options Scenario.exhausted) Scenario.never_acknowledged
              Scenario.exhausted eq_refl)
    as (s1 & cl & E & Hp & Hc & _).
  exists s1, cl. repeat split; assumption.
Defined.

Lemma attemptReconnect_schedules (s : Service) :
  isReconnecting s = false ->
  reconnectAttempts s < maxReconnectAttempts ->
  let s' := attemptReconnect s in
  let kept := match reconnectTimer s with
              | Some old => clearTimeout old (timers s)
              | None => timers s
              end in
  reconnectAttempts s' = reconnectAttempts s + 1
  /\ isReconnecting s' = true
  /\ reconnectTimer s' = Some (next_id (timers s))
  /\ timers s'
     = snd (setTimeout ReconnectCallback
                       (backoffDelay (reconnectAttempts s + 1)) kept)
  /\ ws s' = ws s /\ log s' = log s /\ outbox s' = outbox s
  /\ callbacks s' = callbacks s /\ config s' = config s.
Proof.
  intros Hflag Hless. cbv zeta.
  destruct s as [sock cbs cfg attempts timer flag tt out calls].
  cbn in Hflag, Hless. subst flag.
  unfold attemptReconnect. cbn [isReconnecting reconnectAttempts].
  replace (maxReconnectAttempts <=? attempts) with false
    by (symmetry; apply Z.leb_gt; exact Hless).
  destruct timer as [old|]; cbn; repeat split.
Qed.

(** X4.  When the connection timeout fires on a socket that has not
    opened, the callback calls [close] on the socket (which stays in
    [this.ws], closing), rejects the promise of [connect] with the
    connection-timeout error and, the policy not being exhausted and no
    reconnection pending, schedules the next reconnection: the counter
    goes up by one and a reconnect timer with the backoff delay of the new
    counter value is armed and recorded in [reconnectTimer]. *)
Theorem connection_timeout_schedules_reconnect
        (options : TranscriptionOptions) (s : Service) :
  isReconnecting s = false ->
  reconnectAttempts s < maxReconnectAttempts ->
  exists s1 cl,
    connect options None s = (s1, Some cl, Pending)
    /\ let s2 := fst (connectionTimeout_fires cl s1) in
       snd (connectionTimeout_fires cl s1) = Some (Error "WebSocket连接超时")
       /\ ws s2 = Some (mkWebSocket CLOSING 0)
       /\ log s2 = log s1 ++ [SocketCloseCalled]
       /\ reconnectAttempts s2 = reconnectAttempts s + 1
       /\ isReconnecting s2 = true
       /\ reconnectTimer s2 = Some (S (next_id (timers s)))
       /\ In (mkTimer (S (next_id (timers s)))
                      (backoffDelay (reconnectAttempts s + 1))
                      ReconnectCallback)
             (pending (timers s2))
       /\ outbox s2 = outbox s.
Proof.
  intros Hflag Hless.
  destruct (connect_result options s Hflag)
    as (s1 & E & Hws & Ht & Hlog & Ha & Hrt & Hflag1 & Hout & _).
  exists s1, (mkConnectClosure (next_id (timers s)) false).
  split; [exact E|]. cbv zeta.
  unfold connectionTimeout_fires. cbn [connectionTimeoutId].
  assert (Hp : is_pending (next_id (timers s)) (timers s1) = true)
    by (rewrite Ht; apply (setTimeout_is_pending ConnectionTimeout 5000)).
  rewrite Hp.
  set (s1' := set_timers (clearTimeout (next_id (timers s)) (timers s1)) s1).
  assert (Hclosed : ws_is_open s1' = false)
    by (unfold ws_is_open; subst s1'; cbn; now rewrite Hws).
  rewrite Hclosed. cbn [fst snd].
  set (s1c := ws_close s1').
  assert (Hc : ws s1c = Some (mkWebSocket CLOSING 0)
               /\ log s1c = log s1 ++ [SocketCloseCalled]
               /\ reconnectAttempts s1c = reconnectAttempts s
               /\ isReconnecting s1c = false
               /\ next_id (timers s1c) = S (next_id (timers s))
               /\ outbox s1c = outbox s).
  { subst s1c s1'. unfold ws_close. cbn. rewrite Hws. cbn.
    rewrite Ht. cbn. repeat split; assumption. }
  destruct Hc as (Hcw & Hcl & Hca & Hcf & Hcn & Hco).
  destruct (attemptReconnect_schedules s1c Hcf)
    as (H1 & H2 & H3 & H4 & H5 & H6 & H7 & _);
    [now rewrite Hca|].
  clearbody s1c.
  split; [reflexivity|].
  split; [now rewrite H5|].
  split; [now rewrite H6|].
  split; [now rewrite H1, Hca|].
  split; [exact H2|].
  split; [now rewrite H3, Hcn|].
  split; [|now rewrite H7].
  rewrite H4. cbn. apply in_or_app. right.
  destruct (reconnectTimer s1c); cbn; rewrite <- Hcn, <- Hca; now left.
Qed.

Lemma connection_timeout_schedules_reconnect_example :
  exists s1 cl,
    connect (own_options initial) None initial = (s1, Some cl, Pending)
    /\ snd (connectionTimeout_fires cl s1) = Some (Error "WebSocket连接超时")
    /\ reconnectAttempts (fst (connectionTimeout_fires cl s1)) = 1
    /\ In (mkTimer 2%nat 1000 ReconnectCallback)
          (pending (timers (fst (connectionTimeout_fires cl s1)))).
Proof.
  destruct (connection_timeout_schedules_reconnect
              (own_options initial) initial eq_refl)
    as (s1 & cl & E & He & _ & _ & Ha & _ & _ & Hin & _);
    [unfold maxReconnectAttempts; cbn; lia|].
  exists s1, cl. repeat split; assumption.
Defined.

(** How [sendConfig] ends depends on what it observes only. *)
Lemma handshake_completion (attempts : list Z) (msg msg' : Message)
      (obs : HandshakeObs) (s s' : Service) :
  snd (handshake attempts msg obs s) = snd (handshake attempts msg' obs s').
Proof.
  induction attempts as [|a l IH]; cbn; [reflexivity|].
  destruct (outcome obs a); destruct (a =? 3); cbn; auto.
Qed.

Lemma sendConfig_completion (obs : HandshakeObs) (s s' : Service) :
  snd (sendConfig obs s) = snd (sendConfig obs s').
Proof.
  unfold sendConfig.
  destruct (waitForConnection (ready_at obs) 0 10) as [i|]; [|reflexivity].
  destruct (negb (ready_at obs i)); [reflexivity|].
  apply handshake_completion.
Qed.

(** ** Closing *)

(** X5.  After the [onopen] handler has run (which resets the policy), a
    close of the socket that is unclean, or that comes before the
    handshake has completed, requests a reconnection, and that request is
    the first of the policy: the counter becomes 1 and a reconnect timer of
    1000 ms is armed and recorded.  A clean close after a completed
    handshake leaves the service as it is.  In both cases the registered
    [onClose] callback is the one called. *)
Theorem close_after_open (cl : ConnectClosure) (obs : HandshakeObs)
        (wasClean : bool) (s : Service) :
  let s1 := fst (fst (ws_onopen cl obs s)) in
  let cl1 := snd (fst (ws_onopen cl obs s)) in
  let s2 := fst (ws_onclose cl1 wasClean s1) in
  snd (ws_onclose cl1 wasClean s1) = onClose (callbacks s)
  /\ (configSent cl1 = true <-> snd (sendConfig obs s) = Returned
                                \/ configSent cl = true)
  /\ if configSent cl1 && wasClean then s2 = s1
     else reconnectAttempts s2 = 1
          /\ isReconnecting s2 = true
          /\ reconnectTimer s2 = Some (next_id (timers s))
          /\ In (mkTimer (next_id (timers s)) 1000 ReconnectCallback)
                (pending (timers s2))
          /\ ws s2 = ws s.
Proof.
  cbv zeta.
  destruct (TransportFacts.ws_onopen_policy cl obs s) as (Ha & Hf).
  destruct (TransportFacts.ws_onopen_resolves cl obs s) as (_ & Hws & _).
  pose proof (ws_onopen_timers cl obs s) as Ht.
  assert (Hcb : callbacks (fst (fst (ws_onopen cl obs s))) = callbacks s
                /\ (configSent (snd (fst (ws_onopen cl obs s))) = true
                    <-> snd (sendConfig obs s) = Returned
                        \/ configSent cl = true)).
  { unfold ws_onopen.
    set (s0 := match onOpen (callbacks _) with
               | Some cb => emit (OnOpenCalled cb) _
               | None => _
               end).
    assert (H0 : callbacks s0 = callbacks s)
      by (subst s0; cbn; now destruct (onOpen (callbacks s))).
    destruct (sendConfig_keeps obs s0) as (_ & _ & _ & _ & _ & _ & Hc0 & _).
    cbv zeta in Hc0.
    rewrite (sendConfig_completion obs s s0).
    destruct (sendConfig obs s0) as [s' [|e]]; cbn in *.
    - split; [congruence|]. split; [intros _; now left | reflexivity].
    - split; [congruence|].
      split; [intros H; now right | intros [H|H]; [discriminate | exact H]]. }
  destruct Hcb as (Hcb & Hsent).
  set (s1 := fst (fst (ws_onopen cl obs s))) in *.
  set (cl1 := snd (fst (ws_onopen cl obs s))) in *.
  clearbody s1 cl1.
  unfold ws_onclose. cbn [fst snd].
  split; [now rewrite Hcb|]. split; [exact Hsent|].
  destruct (configSent cl1), wasClean; cbn [negb orb andb]; try reflexivity;
    (destruct (attemptReconnect_schedules s1 Hf)
       as (H1 & H2 & H3 & H4 & H5 & _);
     [rewrite Ha; unfold maxReconnectAttempts; lia|];
     rewrite H1, H2, H3, H4, H5, Ha, Ht, Hws;
     repeat split;
     destruct (reconnectTimer s1); cbn; apply in_or_app; right; now left).
Qed.

(** ** Sending the configuration *)




Lemma handshake_returned (msg : Message) (obs : HandshakeObs) (s : Service) :
  match handshake [1; 2; 3] msg obs s with
  | (s', Returned) => s' = ws_send msg s
  | (s', Thrown _) => s' = s \/ s' = ws_send msg s
  end.
Proof.
  cbn. destruct (outcome obs 1), (outcome obs 2), (outcome obs 3); cbn; auto.
Qed.

Lemma sendConfig_sends (obs : HandshakeObs) (s : Service) :
  match sendConfig obs s with
  | (s', Returned) => s' = ws_send (config_message (config s)) s
  | (s', Thrown _) =>
      s' = s \/ s' = ws_send (config_message (config s)) s
  end.
Proof.
  unfold sendConfig.
  destruct (waitForConnection (ready_at obs) 0 10) as [i|]; [|now left].
  destruct (negb (ready_at obs i)); [now left|].
  apply handshake_returned.
Qed.

(** X8.  [updateConfig] stores the new language and model at once, but
    the message of its [sendConfig] is built when that call resumes, from
    the configuration as it is then.  Whatever runs in between and leaves
    the socket open, a call that returns normally has handed exactly one
    message to the socket, the configuration found at the resumption, and
    a call that throws at most that one.  When nothing wrote the
    configuration in between the message carries the new language and
    model.  When a second [updateConfig] is made before the first one
    resumes, the first call sends the values of the second, and with the
    continuation of the second call the socket is handed the second
    configuration twice and the first never. *)
Theorem updateConfig_sends_what_it_finds
        (language model : string) (meanwhile : Service -> Service)
        (obs : HandshakeObs) (s : Service) :
  ws_is_open (meanwhile (updateConfig_assigns language model s)) = true ->
  let s0 := updateConfig_assigns language model s in
  let s1 := meanwhile s0 in
  let run := updateConfig_then language model meanwhile obs s in
  let msg := config_message (config s1) in
  (config s0 = mkConfig language model /\ outbox s0 = outbox s
   /\ ws s0 = ws s)
  /\ updateConfig language model obs s
     = updateConfig_then language model (fun s => s) obs s
  /\ config (fst run) = config s1
  /\ match snd run with
     | Returned => outbox (fst run) = outbox s1 ++ [msg]
     | Thrown _ => outbox (fst run) = outbox s1
                   \/ outbox (fst run) = outbox s1 ++ [msg]
     end
  /\ (config s1 = config s0 ->
      exists payload,
        msg = TextMessage (JObject [("event", JString "config");
                                    ("config", payload)])
        /\ json_field "language" payload = Some (JString language)
        /\ json_field "model" payload = Some (JString model))
  /\ (forall language' model' obs',
        ws_is_open s = true ->
        let msg' := config_message (mkConfig language' model') in
        let first :=
          updateConfig_then language model
                            (updateConfig_assigns language' model') obs s in
        let second := sendConfig obs' (fst first) in
        (snd first = Returned -> outbox (fst first) = outbox s ++ [msg'])
        /\ (snd first = Returned -> snd second = Returned ->
            outbox (fst second) = outbox s ++ [msg'; msg'])).
Proof.
  intros _. cbv zeta. unfold updateConfig_then.
  set (s0 := updateConfig_assigns language model s).
  assert (H0 : config s0 = mkConfig language model /\ outbox s0 = outbox s)
    by (subst s0; unfold updateConfig_assigns; cbn; auto).
  split; [now split|]. split; [reflexivity|].
  split; [apply (sendConfig_keeps obs (meanwhile s0))|].
  split.
  { pose proof (sendConfig_sends obs (meanwhile s0)) as H.
    destruct (sendConfig obs (meanwhile s0)) as [s' [|e]]; cbn [fst snd];
      [subst s' | destruct H as [->| ->]]; cbn; auto. }
  split.
  { intros ->. destruct H0 as [-> _].
    eexists. split; [reflexivity|]. split; reflexivity. }
  intros language' model' obs' _.
  set (s2 := updateConfig_assigns language' model' s0).
  assert (H2 : config s2 = mkConfig language' model' /\ outbox s2 = outbox s)
    by (subst s2; unfold updateConfig_assigns; cbn; tauto).
  destruct H2 as (Hc2 & Ho2). clearbody s2.
  pose proof (sendConfig_sends obs s2) as H.
  destruct (sendConfig obs s2) as [sa [|e]]; cbn [fst snd];
    [|split; discriminate].
  subst sa. split.
  { intros _. cbn. now rewrite Hc2, Ho2. }
  intros _.
  pose proof (sendConfig_sends obs'
                (ws_send (config_message (config s2)) s2)) as H'.
  destruct (sendConfig obs' (ws_send (config_message (config s2)) s2))
    as [sb [|e]]; cbn [fst snd]; [|discriminate].
  intros _. subst sb. cbn. rewrite Hc2, Ho2, <- app_assoc. reflexivity.
Qed.

Lemma updateConfig_sends_what_it_finds_example :
  outbox (fst (sendConfig Scenario.acknowledged_at_once
                 (fst (updateConfig_then
                         "en" "base" (updateConfig_assigns "fr" "small")
                         Scenario.acknowledged_at_once Scenario.connected))))
  = [config_message (mkConfig "fr" "small");
     config_message (mkConfig "fr" "small")].
Proof.
  pose proof (updateConfig_sends_what_it_finds
                "en" "base" (fun s => s) Scenario.acknowledged_at_once
                Scenario.connected eq_refl) as H.
  cbv zeta in H.
  destruct H as (_ & _ & _ & _ & _ & H).
  destruct (H "fr" "small" Scenario.acknowledged_at_once eq_refl)
    as (_ & H2).
  exact (H2 eq_refl eq_refl).
Defined.

(** ** Two sessions from start to end *)

Lemma eqb_succ_false (n : nat) : Nat.eqb n (S n) = false.
Proof. apply Nat.eqb_neq. lia. Qed.

Lemma eqb_succ_false' (n : nat) : Nat.eqb (S n) n = false.
Proof. apply Nat.eqb_neq. lia. Qed.

(** The state bound to [x] by a [let] of the goal, computed. *)
Ltac settle_state x :=
  let E := fresh "E" in
  let body := eval unfold x in x in
  assert (E : x = body) by reflexivity;
  clearbody x;
  cbv -[Nat.eqb] in E;
  repeat (first [ rewrite Nat.eqb_refl in E
                | rewrite eqb_succ_false in E
                | rewrite eqb_succ_false' in E
                | match goal with
                  | H : Nat.eqb _ _ = false |- _ => rewrite H in E
                  end ];
          cbv -[Nat.eqb] in E);
  subst x.

(** X19.  A server that cannot be reached is given up after the first
    attempt.  On a service that is not reconnecting, with the counter at 0
    and no timer pending: [connect] arms the connection timeout; the
    failure of the socket calls the registered [onError] once and
    schedules a reconnection for 1000 ms later (counter 1); when that timer
    fires the [connect] of the callback is skipped, no socket is made;
    when the connection timeout fires the promise of [connect] is rejected
    with the connection-timeout error and the request to reconnect is
    ignored.  The service is left with no timer pending and
    [isReconnecting] true: a further reconnect request does nothing, and
    every later [connect], whatever its options, returns at once without
    connecting. *)
Theorem unreachable_server_is_given_up
        (options : TranscriptionOptions) (ctor : option JsError)
        (s : Service) :
  isReconnecting s = false ->
  reconnectAttempts s = 0 ->
  pending (timers s) = [] ->
  reconnectTimer s <> Some (next_id (timers s)) ->
  exists s1 cl,
    connect options None s = (s1, Some cl, Pending)
    /\ let n := next_id (timers s) in
       let s2 := ws_onerror (socket_lost s1) in
       let s3 := fst (ws_onclose cl false s2) in
       let s4 := fst (fst (reconnectCallback_fires (S n) ctor s3)) in
       let s5 := fst (connectionTimeout_fires cl s4) in
       log s3 = log s1 ++ match opt_onError options with
                          | Some cb => [OnErrorCalled cb "WebSocket连接错误"]
                          | None => []
                          end
       /\ pending (timers s3) = [mkTimer n 5000 ConnectionTimeout;
                                 mkTimer (S n) 1000 ReconnectCallback]
       /\ reconnectCallback_fires (S n) ctor s3
          = (s4, None, Resolved)
       /\ ws s4 = ws s3
       /\ pending (timers s4) = [mkTimer n 5000 ConnectionTimeout]
       /\ snd (connectionTimeout_fires cl s4)
          = Some (Error "WebSocket连接超时")
       /\ pending (timers s5) = []
       /\ isReconnecting s5 = true
       /\ reconnectAttempts s5 = 1
       /\ attemptReconnect s5 = s5
       /\ forall options' ctor',
            connect options' ctor' s5 = (s5, None, Resolved).
Proof.
  intros Hflag Hzero Hnone Hfresh.
  destruct (connect_result options s Hflag)
    as (s1 & E & Hws & Ht & Hlog & Ha & Hrt & Hf1 & Hout & Hcb & _).
  exists s1, (mkConnectClosure (next_id (timers s)) false).
  split; [exact E|]. clear E.
  destruct s1 as [ws1 cb1 cfg1 a1 rt1 f1 t1 o1 l1].
  cbn in Hws, Ht, Hlog, Ha, Hrt, Hf1, Hout, Hcb.
  rewrite Hzero in Ha. subst ws1 t1 a1 rt1 f1 cb1.
  destruct (timers s) as [pend n]. cbn in Hnone, Hfresh. subst pend.
  clear Hlog Hout.
  assert (Hold : forall old, reconnectTimer s = Some old ->
                             Nat.eqb n old = false).
  { intros old Eold. apply Nat.eqb_neq. congruence. }
  destruct (opt_onError options) as [cb|];
    destruct (reconnectTimer s) as [old|];
    try specialize (Hold _ eq_refl);
    intros n' s2 s3 s4 s5; subst n';
    settle_state s2; settle_state s3; settle_state s4; settle_state s5;
    repeat split; try (intros; reflexivity);
    cbv -[Nat.eqb];
    rewrite ?Nat.eqb_refl, ?eqb_succ_false, ?eqb_succ_false', ?Hold;
    first [ reflexivity | apply app_nil_r | symmetry; apply app_nil_r ].
Qed.


Lemma unreachable_server_is_given_up_example :
  exists s1 cl,
    connect (own_options initial) None initial = (s1, Some cl, Pending)
    /\ let s3 := fst (ws_onclose cl false (ws_onerror (socket_lost s1))) in
       let s4 := fst (fst (reconnectCallback_fires 2%nat None s3)) in
       let s5 := fst (connectionTimeout_fires cl s4) in
       pending (timers s5) = []
       /\ isReconnecting s5 = true
       /\ forall options' ctor', connect options' ctor' s5 = (s5, None, Resolved).
Proof.
  destruct (unreachable_server_is_given_up (own_options initial) None initial
              eq_refl eq_refl eq_refl)
    as (s1 & cl & E & _ & _ & _ & _ & _ & _ & Hp & Hf & _ & _ & Hc);
    [discriminate|].
  exists s1, cl. repeat split; assumption.
Defined.

(** ** Disconnecting while a connection is being made *)

(** X6.  [disconnect] while the socket is still connecting does not end
    the session.  It nulls the transport handle, resets the policy and
    cancels the reconnect timer, but the 5000 ms connection timeout of the
    [connect] stays pending and the handlers of the socket it closed stay
    installed.  The close event of that socket (not clean, handshake not
    completed; the error event may come before it) calls the registered
    [onClose] and schedules a reconnection: counter 1, a 1000 ms timer,
    [isReconnecting] true.  When that timer fires the [connect] of its
    callback is skipped; when the connection timeout fires it finds no
    open socket and rejects the promise of [connect], and its request to
    reconnect is ignored.  The service is left with no socket, no timer
    pending and [isReconnecting] true, where every [connect] returns at
    once; a second [disconnect] clears the flag. *)
Theorem disconnect_while_connecting
        (options : TranscriptionOptions) (ctor : option JsError)
        (error_event : bool) (s : Service) :
  isReconnecting s = false ->
  pending (timers s) = [] ->
  reconnectTimer s <> Some (next_id (timers s)) ->
  exists s1 cl,
    connect options None s = (s1, Some cl, Pending)
    /\ let n := next_id (timers s) in
       let s2 := disconnect s1 in
       let closing := ws_onclose cl false
                        (if error_event then ws_onerror s2 else s2) in
       let s3 := fst closing in
       let s4 := fst (fst (reconnectCallback_fires (S n) ctor s3)) in
       let s5 := fst (connectionTimeout_fires cl s4) in
       (ws s2 = None /\ isReconnecting s2 = false
        /\ reconnectAttempts s2 = 0 /\ reconnectTimer s2 = None
        /\ pending (timers s2) = [mkTimer n 5000 ConnectionTimeout])
       /\ snd closing = opt_onClose options
       /\ (isReconnecting s3 = true /\ reconnectAttempts s3 = 1
           /\ reconnectTimer s3 = Some (S n)
           /\ pending (timers s3) = [mkTimer n 5000 ConnectionTimeout;
                                     mkTimer (S n) 1000 ReconnectCallback])
       /\ reconnectCallback_fires (S n) ctor s3 = (s4, None, Resolved)
       /\ pending (timers s4) = [mkTimer n 5000 ConnectionTimeout]
       /\ snd (connectionTimeout_fires cl s4)
          = Some (Error "WebSocket连接超时")
       /\ (ws s5 = None /\ pending (timers s5) = []
           /\ isReconnecting s5 = true /\ reconnectAttempts s5 = 1)
       /\ (forall options' ctor',
             connect options' ctor' s5 = (s5, None, Resolved))
       /\ isReconnecting (disconnect s5) = false.
Proof.
  intros Hflag Hnone Hfresh.
  destruct (connect_result options s Hflag)
    as (s1 & E & Hws & Ht & Hlog & Ha & Hrt & Hf1 & Hout & Hcb & _).
  exists s1, (mkConnectClosure (next_id (timers s)) false).
  split; [exact E|]. clear E.
  destruct s1 as [ws1 cb1 cfg1 a1 rt1 f1 t1 o1 l1].
  cbn in Hws, Ht, Hlog, Ha, Hrt, Hf1, Hout, Hcb.
  subst ws1 t1 rt1 f1 cb1.
  destruct (timers s) as [pend n]. cbn in Hnone, Hfresh. subst pend.
  clear Hlog Hout Ha.
  assert (Hold : forall old, reconnectTimer s = Some old ->
                             Nat.eqb n old = false).
  { intros old Eold. apply Nat.eqb_neq. congruence. }
  destruct error_event;
    destruct (opt_onError options) as [cb|];
    destruct (reconnectTimer s) as [old|];
    try specialize (Hold _ eq_refl);
    intros n' s2 closing s3 s4 s5; subst n';
    settle_state s2; settle_state closing; settle_state s3;
    settle_state s4; settle_state s5;
    repeat split; try (intros; reflexivity);
    cbv -[Nat.eqb];
    rewrite ?Nat.eqb_refl, ?eqb_succ_false, ?eqb_succ_false', ?Hold;
    reflexivity.
Qed.

Lemma disconnect_while_connecting_example :
  exists s1 cl,
    connect (own_options Scenario.connected) None Scenario.connected
    = (s1, Some cl, Pending)
    /\ let s3 := fst (ws_onclose cl false (disconnect s1)) in
       let s4 := fst (fst (reconnectCallback_fires 2%nat None s3)) in
       let s5 := fst (connectionTimeout_fires cl s4) in
       is_pending (connectionTimeoutId cl) (timers (disconnect s1)) = true
       /\ reconnectAttempts s3 = 1
       /\ pending (timers s5) = []
       /\ isReconnecting s5 = true.
Proof.
  destruct (disconnect_while_connecting
              (own_options Scenario.connected) None false Scenario.connected
              eq_refl eq_refl)
    as (s1 & cl & E & (_ & _ & _ & _ & Hp) & _ & (_ & Ha & _) & _ & _ & He
        & (_ & Hn & Hf & _) & _);
    [discriminate|].
  exists s1, cl. split; [exact E|]. cbv zeta.
  assert (Hid : connectionTimeoutId cl = 1%nat).
  { cbn in E. now injection E as _ <-. }
  repeat split; try assumption.
  unfold is_pending. rewrite Hp, Hid. reflexivity.
Defined.

End SessionFacts.


(** * Further properties of the capture handler *)

Module CaptureFacts.
Import Browser Recorder.

(** ** Peak amplitude *)

(** X9.  The [max] that [handleAudioProcess] computes for a frame is its
    peak absolute amplitude: no sample exceeds it in absolute value, on a
    non-empty frame some sample attains it, on the empty frame it is 0; for
    16-bit samples it lies between 0 and 32768; and it is the same number
    as the [maxAbs] that [sendAudioData] computes for the frame. *)
Theorem maxAmplitude_is_the_peak (frame : list Z) :
  (forall x, In x frame -> Z.abs x <= maxAmplitude frame)
  /\ (frame <> [] ->
      exists x, In x frame /\ Z.abs x = maxAmplitude frame)
  /\ maxAmplitude [] = 0
  /\ 0 <= maxAmplitude frame
  /\ (Forall is_int16 frame -> maxAmplitude frame <= 32768)
  /\ maxAmplitude frame = maxAbs frame.
Proof.
  unfold maxAmplitude, maxAbs. rewrite RecorderFacts.maxAmplitude_fold.
  destruct (RecorderFacts.maxAbs_fold_ge frame 0) as (H1 & H2 & H3).
  split; [exact H2|]. split.
  { intros Hne. destruct H3 as [E|H3]; [|exact H3].
    destruct frame as [|x l]; [congruence|].
    exists x. split; [now left|].
    specialize (H2 x (or_introl eq_refl)). lia. }
  split; [reflexivity|]. split; [exact H1|]. split; [|reflexivity].
  intros Hrange. destruct H3 as [->|(x & Hx & <-)]; [lia|].
  rewrite Forall_forall in Hrange. specialize (Hrange x Hx).
  unfold is_int16 in Hrange. lia.
Qed.

(** ** Conditioner and transport together *)

Lemma sendAudioData_loud (frame : list Z) (s : Transport.Service) :
  Transport.ws_is_open s = true ->
  Forall is_int16 frame ->
  100 <= maxAbs frame ->
  Transport.sendAudioData (buffer_of_Int16Array frame) (fun s => s) s
  = (Transport.ws_send
       (Transport.BinaryMessage (buffer_of_Int16Array frame)) s,
     Transport.Returned).
Proof.
  intros Hopen Hrange Hloud.
  assert (Hne : frame <> []) by (intros ->; cbn in Hloud; lia).
  assert (Hlen : (byteLength (buffer_of_Int16Array frame) =? 0) = false).
  { apply Z.eqb_neq. rewrite TransportFacts.buffer_of_Int16Array_length.
    destruct frame; [congruence | cbn [List.length]; lia]. }
  unfold Transport.sendAudioData.
  destruct (TransportFacts.ws_is_open_inv s Hopen) as (sock & Hws & Hst).
  rewrite Hws, Hst. cbn [Transport.ReadyState_eqb negb].
  rewrite Hlen, TransportFacts.after_backpressure_undisturbed.
  rewrite (TransportFacts.Int16Array_roundtrip frame Hrange).
  replace (maxAbs frame <? 100) with false
    by (symmetry; apply Z.ltb_ge; exact Hloud).
  unfold Transport.socket_send. now rewrite Hws, Hst.
Qed.

(** X10.  With RNNoise enabled the conditioner keeps a frame exactly when
    its peak exceeds 500, and the transport's own amplitude filter never
    drops a frame the conditioner kept: for a connected handler, an open
    socket and a frame of 16-bit samples, the frame's buffer is appended to
    the outbound channel when the peak exceeds 500 and the channel is left
    as it was otherwise. *)
Theorem rnnoise_kept_frames_reach_the_socket
        (cl : Render) (frame : list Z) (r : Recorder) :
  useRNNoise cl = true ->
  isConnected cl = true ->
  Forall is_int16 frame ->
  Transport.ws_is_open (service r) = true ->
  let r' := handleAudioProcess cl frame (fun s => s) r in
  isLikelyVoice cl frame = (500 <? maxAmplitude frame)
  /\ Transport.outbox (service r')
     = Transport.outbox (service r)
         ++ if 500 <? maxAmplitude frame
            then [Transport.BinaryMessage (buffer_of_Int16Array frame)]
            else [].
Proof.
  intros Hrn Hconn Hrange Hopen. cbv zeta.
  assert (Hkeep : isLikelyVoice cl frame = (500 <? maxAmplitude frame))
    by (unfold isLikelyVoice; now rewrite Hrn).
  split; [exact Hkeep|].
  unfold handleAudioProcess. rewrite Hkeep, Hconn.
  pose proof (RecorderFacts.gate_keeps_service
                cl (500 <? maxAmplitude frame) r) as Hgate.
  cbv zeta in Hgate.
  set (gated := if autoPauseAfterSilence cl then _ else r) in *.
  destruct (Z.ltb_spec 500 (maxAmplitude frame)) as [Hloud|Hquiet];
    cbn [negb].
  - cbn [service set_service].
    rewrite sendAudioData_loud; [now rewrite Hgate | now rewrite Hgate
                                 | exact Hrange |].
    unfold maxAmplitude in Hloud. rewrite RecorderFacts.maxAmplitude_fold in Hloud.
    unfold maxAbs. lia.
  - now rewrite Hgate, app_nil_r.
Qed.

Lemma rnnoise_kept_frames_reach_the_socket_example :
  Transport.outbox
    (service (handleAudioProcess (hooks Scenario.recording_with_auto_stop)
                                 Scenario.loud_frame (fun s => s)
                                 Scenario.recording_with_auto_stop))
  = Transport.outbox (service Scenario.recording_with_auto_stop)
      ++ if 500 <? maxAmplitude Scenario.loud_frame
         then [Transport.BinaryMessage
                 (buffer_of_Int16Array Scenario.loud_frame)]
         else [].
Proof.
  refine (proj2 (rnnoise_kept_frames_reach_the_socket
                   (hooks Scenario.recording_with_auto_stop)
                   Scenario.loud_frame Scenario.recording_with_auto_stop
                   eq_refl eq_refl _ eq_refl)).
  unfold Scenario.loud_frame. apply Forall_forall. intros x Hx.
  apply repeat_spec in Hx. subst x. unfold is_int16. lia.
Defined.

(** ** The silence counter over a recording *)

(** One handler, with the state values [cl], run over the frames. *)
Lemma handler_on_dropped_frame (cl : Render) (frame : list Z) (r : Recorder) :
  autoPauseAfterSilence cl = true ->
  isLikelyVoice cl frame = false ->
  let r' := handleAudioProcess cl frame (fun s => s) r in
  silenceCounterRef r' = silenceCounterRef r + 1
  /\ pending (timers r')
     = pending (timers r)
         ++ (if (50 <? silenceCounterRef r + 1) && negb (silenceTimerActive cl)
             then [mkTimer (next_id (timers r)) 3000 SilenceCountdown]
             else [])
  /\ next_id (timers r')
     = (if (50 <? silenceCounterRef r + 1) && negb (silenceTimerActive cl)
        then S (next_id (timers r)) else next_id (timers r)).
Proof.
  intros Hon Hdrop. cbv zeta. unfold handleAudioProcess.
  rewrite Hon, Hdrop. cbn [negb]. cbv zeta.
  cbn [silenceCounterRef set_silenceCounterRef].
  destruct ((50 <? silenceCounterRef r + 1) && negb (silenceTimerActive cl));
    cbn; rewrite ?app_nil_r; repeat split.
Qed.

Lemma handler_on_kept_frame (cl : Render) (frame : list Z) (r : Recorder) :
  autoPauseAfterSilence cl = true ->
  isLikelyVoice cl frame = true ->
  silenceCounterRef (handleAudioProcess cl frame (fun s => s) r) = 0.
Proof.
  intros Hon Hkeep. unfold handleAudioProcess.
  rewrite Hon, Hkeep. cbn [negb]. cbv zeta.
  destruct (silenceTimerRef (set_silenceCounterRef 0 r)),
    (silenceTimerActive cl), (isConnected cl); reflexivity.
Qed.

Lemma dropped_run_counter (cl : Render) (frames : list (list Z)) :
  autoPauseAfterSilence cl = true ->
  Forall (fun frame => isLikelyVoice cl frame = false) frames ->
  forall r,
    silenceCounterRef
      (fold_left (fun r frame => handleAudioProcess cl frame (fun s => s) r)
                 frames r)
    = silenceCounterRef r + Z.of_nat (List.length frames).
Proof.
  intros Hon Hall. induction Hall as [|frame frames Hdrop _ IH]; intros r.
  - cbn. lia.
  - cbn [fold_left List.length]. rewrite IH.
    destruct (handler_on_dropped_frame cl frame r Hon Hdrop) as (-> & _).
    lia.
Qed.

(** X11.  With auto-stop enabled the silence counter is the length of the
    current run of dropped frames: over a run of dropped frames it grows by
    the number of frames, and after any recording whose last kept frame is
    followed by k dropped frames it is k, whatever came before. *)
Theorem silence_counter_is_the_run_length
        (r : Recorder) (before quiet : list (list Z)) (kept : list Z) :
  autoPauseAfterSilence (hooks r) = true ->
  Forall (fun frame => isLikelyVoice (hooks r) frame = false) quiet ->
  silenceCounterRef (record_frames quiet r)
  = silenceCounterRef r + Z.of_nat (List.length quiet)
  /\ (isLikelyVoice (hooks r) kept = true ->
      silenceCounterRef (record_frames (before ++ kept :: quiet) r)
      = Z.of_nat (List.length quiet)).
Proof.
  intros Hon Hquiet. unfold record_frames, installed_handler.
  split; [now apply dropped_run_counter|].
  intros Hkept. rewrite fold_left_app. cbn [fold_left].
  rewrite (dropped_run_counter (hooks r) quiet Hon Hquiet).
  now rewrite handler_on_kept_frame.
Qed.

Lemma silence_counter_is_the_run_length_example :
  silenceCounterRef
    (record_frames (repeat Scenario.silent_frame 3)
                   Scenario.recording_with_auto_stop) = 3
  /\ silenceCounterRef
       (record_frames ([Scenario.silent_frame] ++ Scenario.loud_frame
                         :: repeat Scenario.silent_frame 3)
                      Scenario.recording_with_auto_stop) = 3.
Proof.
  assert (Hq : Forall (fun frame =>
                         isLikelyVoice (hooks Scenario.recording_with_auto_stop)
                                       frame = false)
                      (repeat Scenario.silent_frame 3))
    by (repeat constructor).
  destruct (silence_counter_is_the_run_length
              Scenario.recording_with_auto_stop [Scenario.silent_frame]
              (repeat Scenario.silent_frame 3) Scenario.loud_frame
              eq_refl Hq) as (H1 & H2).
  split; [exact H1 | exact (H2 eq_refl)].
Defined.

(** ** Countdowns armed by one handler *)

Lemma dropped_run_timers (cl : Render) (frames : list (list Z)) :
  autoPauseAfterSilence cl = true ->
  silenceTimerActive cl = false ->
  Forall (fun frame => isLikelyVoice cl frame = false) frames ->
  forall r,
    exists armed,
      pending (timers
                 (fold_left
                    (fun r frame => handleAudioProcess cl frame (fun s => s) r)
                    frames r))
      = pending (timers r) ++ armed
      /\ Forall (fun t => timer_delay t = 3000
                          /\ timer_action t = SilenceCountdown) armed
      /\ Z.of_nat (List.length armed)
         = Z.max 0 (Z.min (Z.of_nat (List.length frames))
                          (silenceCounterRef r
                           + Z.of_nat (List.length frames) - 50)).
Proof.
  intros Hon Hflag Hall.
  induction Hall as [|frame frames Hdrop _ IH]; intros r.
  - exists []. cbn. rewrite app_nil_r. repeat split; [constructor | lia].
  - cbn [fold_left].
    destruct (handler_on_dropped_frame cl frame r Hon Hdrop)
      as (Hc & Hp & _). cbv zeta in Hc, Hp.
    destruct (IH (handleAudioProcess cl frame (fun s => s) r))
      as (armed & Ep & Hall' & Hlen).
    rewrite Hflag in Hp. cbn [negb] in Hp. rewrite andb_true_r in Hp.
    rewrite Hp, Hc in *.
    destruct (Z.ltb_spec 50 (silenceCounterRef r + 1)) as [Hover|Hunder].
    + exists (mkTimer (next_id (timers r)) 3000 SilenceCountdown :: armed).
      rewrite Ep, <- app_assoc. split; [reflexivity|].
      split; [constructor; [split; reflexivity | exact Hall']|].
      cbn [List.length]. lia.
    + exists armed. rewrite Ep, app_nil_r. split; [reflexivity|].
      split; [exact Hall'|]. cbn [List.length]. lia.
Qed.

(** X12.  One handler installed while no countdown was active, with
    auto-stop enabled, arms a new 3000 ms countdown on every dropped frame
    past the fiftieth of a run and cancels none: after a run of n dropped
    frames starting at counter value c, the timers pending before are all
    still pending and max(0, min(n, c + n - 50)) countdowns have been
    added. *)
Theorem countdowns_accumulate (r : Recorder) (quiet : list (list Z)) :
  autoPauseAfterSilence (hooks r) = true ->
  silenceTimerActive (hooks r) = false ->
  Forall (fun frame => isLikelyVoice (hooks r) frame = false) quiet ->
  exists armed,
    pending (timers (record_frames quiet r)) = pending (timers r) ++ armed
    /\ Forall (fun t => timer_delay t = 3000
                        /\ timer_action t = SilenceCountdown) armed
    /\ Z.of_nat (List.length armed)
       = Z.max 0 (Z.min (Z.of_nat (List.length quiet))
                        (silenceCounterRef r
                         + Z.of_nat (List.length quiet) - 50)).
Proof.
  intros Hon Hflag Hquiet. unfold record_frames, installed_handler.
  now apply dropped_run_timers.
Qed.

Lemma countdowns_accumulate_example :
  exists armed,
    pending (timers (record_frames (repeat Scenario.silent_frame 53)
                                   Scenario.recording_with_auto_stop))
    = pending (timers Scenario.recording_with_auto_stop) ++ armed
    /\ Z.of_nat (List.length armed) = 3.
Proof.
  assert (Hq : Forall (fun frame =>
                         isLikelyVoice (hooks Scenario.recording_with_auto_stop)
                                       frame = false)
                      (repeat Scenario.silent_frame 53)).
  { apply Forall_forall. intros x Hx. apply repeat_spec in Hx. now subst x. }
  destruct (countdowns_accumulate Scenario.recording_with_auto_stop
              (repeat Scenario.silent_frame 53) eq_refl eq_refl Hq)
    as (armed & Hp & _ & Hlen).
  exists armed. split; [exact Hp|].
  rewrite Hlen, repeat_length. reflexivity.
Defined.

(** ** Stopping *)

(** X13.  [stopRecording] is idempotent.  After it the recording flag is
    down and the media stream, the audio context, the worklet node and the
    animation frame are released; the script processor is released when an
    audio context was live, and otherwise left as it was.  It touches
    neither the silence counter nor the countdown timer, its reference or
    its flag, nor the transport. *)
Theorem stopRecording_idempotent (r : Recorder) :
  stopRecording (stopRecording r) = stopRecording r
  /\ isRecording (stopRecording r) = false
  /\ mediaStreamRef (stopRecording r) = false
  /\ audioContextRef (stopRecording r) = false
  /\ workletNodeRef (stopRecording r) = false
  /\ animationFrameRef (stopRecording r) = false
  /\ processorRef (stopRecording r)
     = (processorRef r && negb (audioContextRef r))
  /\ silenceCounterRef (stopRecording r) = silenceCounterRef r
  /\ silenceTimerRef (stopRecording r) = silenceTimerRef r
  /\ timers (stopRecording r) = timers r
  /\ hooks (stopRecording r) = hooks r
  /\ service (stopRecording r) = service r.
Proof.
  destruct r as [c t p w m a f rec h tt svc].
  destruct p, a; cbn; repeat split.
Qed.

(** ** Acquiring the capture stream *)

(** X14.  Which stream a recording starts on.  With the microphone as the
    source the display capture plays no role and the start succeeds exactly
    when the microphone request does.  Whenever the microphone is wanted, a
    rejected microphone request fails the start.  With both sources and a
    rejected display capture the recording falls back to the microphone
    stream alone; with the system source alone a rejected capture, or one
    without an audio track, fails the start.  With both sources granted the
    stream holds exactly the first audio track of each.  With both sources
    and a display capture that was granted without an audio track there is
    no fallback: the start fails. *)
Theorem acquireStream_cases
        (userMedia displayMedia : option MediaStream)
        (mic sys : MediaStream) (m s : Track) :
  acquireStream microphone userMedia displayMedia = userMedia
  /\ acquireStream both None displayMedia = None
  /\ acquireStream both (Some mic) None = Some mic
  /\ acquireStream system userMedia None = None
  /\ acquireStream system userMedia (Some []) = None
  /\ acquireStream system userMedia (Some (s :: sys)) = Some (s :: sys)
  /\ acquireStream both (Some (m :: mic)) (Some (s :: sys)) = Some [m; s]
  /\ acquireStream both (Some mic) (Some []) = None.
Proof.
  repeat split; try reflexivity.
  - now destruct userMedia.
  - now destruct mic.
Qed.

End CaptureFacts.


(** * Properties of the noise-suppressor worklet *)

Module WorkletFacts.
Import Worklet.

Lemma write_samples_same_length (f : float -> float) (input : Channel) :
  forall output,
    List.length output = List.length input ->
    write_samples f input output = map f input.
Proof.
  induction input as [|x xs IH]; intros [|o os] Hlen; cbn in *;
    try reflexivity; try discriminate.
  f_equal. apply IH. congruence.
Qed.

Lemma gate_cases (x : float) :
  (PrimFloat.ltb (PrimFloat.abs x) NOISE_THRESHOLD = true /\ gate x = 0%float)
  \/ (PrimFloat.ltb (PrimFloat.abs x) NOISE_THRESHOLD = false /\ gate x = x).
Proof.
  unfold gate.
  destruct (PrimFloat.ltb (PrimFloat.abs x) NOISE_THRESHOLD); auto.
Qed.

Lemma gate_idempotent (x : float) : gate (gate x) = gate x.
Proof.
  destruct (gate_cases x) as [[_ E]|[Hb E]]; rewrite E.
  - reflexivity.
  - unfold gate. now rewrite Hb.
Qed.

(** X15.  One call of [process] on a one-channel block whose output
    buffer has the length of its input.  An initialised processor writes
    the gated block and keeps the processor alive: the output has the
    length of the input, a sample whose absolute value is below 0.01 comes
    out as 0 and any other sample (a NaN included) comes out unchanged, and
    running the gate on its own output changes nothing.  A processor that
    is not initialised copies the input.  The other channels and outputs
    are left as they were. *)
Theorem process_gates_the_block
        (input output : Channel) (moreInputChannels : list Channel)
        (moreInputs : list (list Channel))
        (channels : list Channel) (others : list (list Channel)) :
  List.length output = List.length input ->
  process true ((input :: moreInputChannels) :: moreInputs)
          ((output :: channels) :: others)
  = KeepAlive ((map gate input :: channels) :: others)
  /\ process false ((input :: moreInputChannels) :: moreInputs)
             ((output :: channels) :: others)
     = KeepAlive ((input :: channels) :: others)
  /\ List.length (map gate input) = List.length input
  /\ Forall2 (fun x y =>
                if PrimFloat.ltb (PrimFloat.abs x) 0.01
                then y = 0%float else y = x)
             input (map gate input)
  /\ map gate (map gate input) = map gate input.
Proof.
  intros Hlen. unfold process.
  rewrite !write_samples_same_length by exact Hlen.
  rewrite map_id.
  split; [reflexivity|]. split; [reflexivity|].
  split; [apply length_map|]. split.
  - clear. induction input as [|x xs IH]; cbn; constructor; [|exact IH].
    unfold gate, NOISE_THRESHOLD.
    now destruct (PrimFloat.ltb (PrimFloat.abs x) 0.01).
  - rewrite map_map. apply map_ext. intros x. apply gate_idempotent.
Qed.

Lemma process_gates_the_block_example :
  process true [[ [0.5; 0.005; -0.009; -0.25]%float ]] [[ [1; 1; 1; 1]%float ]]
  = KeepAlive [[ [0.5; 0; 0; -0.25]%float ]].
Proof.
  exact (proj1 (process_gates_the_block
                  [0.5; 0.005; -0.009; -0.25]%float [1; 1; 1; 1]%float
                  [] [] [] [] eq_refl)).
Defined.

End WorkletFacts.


(** * Properties of the text statistics *)

Module TextFacts.
Import TextUtils.

Local Abbreviation count p s := (Z.of_nat (List.length (filter p s))).

#[local] Arguments isChinese : simpl never.
#[local] Arguments isPunctuation : simpl never.
#[local] Arguments isWhiteSpace : simpl never.

Lemma count_cons (p : Z -> bool) (u : Z) (s : JsString) :
  count p (u :: s) = (if p u then 1 else 0) + count p s.
Proof. cbn. destruct (p u); cbn [List.length]; lia. Qed.

(** No unit of the counted classes is white space. *)
Lemma class_is_not_space (u : Z) :
  isChineseOrPunctuation u = true -> isWhiteSpace u = false.
Proof.
  unfold isChineseOrPunctuation. intros H.
  apply orb_true_iff in H. destruct H as [H|H].
  - unfold isChinese in H. apply andb_true_iff in H. destruct H as [H1 H2].
    apply Z.leb_le in H1, H2.
    unfold isWhiteSpace. cbn [existsb].
    repeat match goal with
           | |- context [Z.eqb u ?c] =>
               replace (Z.eqb u c) with false
                 by (symmetry; apply Z.eqb_neq; lia)
           end.
    replace (u <=? 0x200a) with false by (symmetry; apply Z.leb_gt; lia).
    now rewrite andb_false_r.
  - unfold isPunctuation in H. cbn [existsb] in H.
    repeat (apply orb_true_iff in H; destruct H as [H|H]);
      try discriminate; apply Z.eqb_eq in H; subst u; reflexivity.
Qed.

Lemma nonEmpty_rev (s : JsString) : nonEmpty (rev s) = nonEmpty s.
Proof.
  destruct s as [|u s]; [reflexivity|]. cbn.
  now destruct (rev s).
Qed.

(** Every word of a split holds a unit that is not white space. *)
Lemma words_le_units (s : JsString) :
  forall inRun current,
    Z.of_nat (List.length (filter nonEmpty (split_whitespace inRun current s)))
    <= (if nonEmpty current then 1 else 0)
       + count (fun u => negb (isWhiteSpace u)) s.
Proof.
  induction s as [|u rest IH]; intros inRun current.
  - cbn [split_whitespace filter]. rewrite nonEmpty_rev.
    destruct (nonEmpty current); cbn; lia.
  - cbn [split_whitespace]. rewrite count_cons.
    destruct (isWhiteSpace u); cbn [negb].
    + destruct inRun.
      * specialize (IH true current). lia.
      * cbn [filter]. rewrite nonEmpty_rev. specialize (IH true []).
        destruct (nonEmpty current); cbn [List.length nonEmpty] in *; lia.
    + specialize (IH false (u :: current)). cbn [nonEmpty] in IH.
      destruct (nonEmpty current); lia.
Qed.

Lemma codePoints_step (hi lo : Z) (rest : JsString) :
  codePoints (hi :: lo :: rest)
  = if isHighSurrogate hi && isLowSurrogate lo
    then [hi; lo] :: codePoints rest
    else [hi] :: codePoints (lo :: rest).
Proof. reflexivity. Qed.

(** Each matching element of [Array.from(text)] holds a class unit of its
    own. *)
Lemma matching_chars_le_units (n : nat) :
  forall text,
    (List.length text <= n)%nat ->
    Z.of_nat (List.length
                (filter (fun char => test isChinese char
                                     || test isPunctuation char)
                        (codePoints text)))
    <= count isChineseOrPunctuation text.
Proof.
  induction n as [|n IH]; intros text Hlen.
  - destruct text; [cbn; lia | cbn in Hlen; lia].
  - destruct text as [|hi [|lo rest]].
    + cbn. lia.
    + rewrite count_cons. cbn [codePoints filter test existsb].
      unfold isChineseOrPunctuation. rewrite !orb_false_r.
      destruct (isChinese hi || isPunctuation hi); cbn; lia.
    + rewrite count_cons, codePoints_step.
      destruct (isHighSurrogate hi && isLowSurrogate lo).
      * rewrite count_cons. cbn [filter test existsb].
        assert (Hrest : (List.length rest <= n)%nat) by (cbn in Hlen; lia).
        specialize (IH rest Hrest). unfold isChineseOrPunctuation in *.
        rewrite !orb_false_r.
        destruct (isChinese hi), (isChinese lo), (isPunctuation hi),
          (isPunctuation lo); cbn [orb List.length]; lia.
      * assert (Hrest : (List.length (lo :: rest) <= n)%nat)
          by (cbn in Hlen |- *; lia).
        specialize (IH (lo :: rest) Hrest).
        set (units := count isChineseOrPunctuation (lo :: rest)) in *.
        cbn [filter test existsb].
        unfold isChineseOrPunctuation. rewrite !orb_false_r.
        destruct (isChinese hi || isPunctuation hi); cbn [List.length]; lia.
Qed.

Lemma units_partition (text : JsString) :
  count isChineseOrPunctuation text
  + count (fun u => negb (isWhiteSpace u))
          (map (fun u => if isChineseOrPunctuation u then 0x20 else u) text)
  = count (fun u => negb (isWhiteSpace u)) text.
Proof.
  induction text as [|u rest IH]; [reflexivity|].
  cbn [map]. rewrite !count_cons.
  destruct (isChineseOrPunctuation u) eqn:E.
  - rewrite (class_is_not_space u E).
    change (isWhiteSpace 0x20) with true. cbn [negb]. lia.
  - destruct (isWhiteSpace u); cbn [negb]; lia.
Qed.

Lemma tokens_le_characters (text : JsString) :
  0 <= calculateTokens text <= calculateCharacters text.
Proof.
  destruct text as [|u rest]; [cbn; lia|].
  unfold calculateTokens, calculateCharacters, split.
  set (text := u :: rest).
  pose proof (matching_chars_le_units (List.length text) text (le_n _)) as HA.
  pose proof (words_le_units
                (map (fun u => if isChineseOrPunctuation u then 0x20 else u)
                     text) false []) as HB.
  cbn [nonEmpty] in HB.
  pose proof (units_partition text) as HP.
  cbv zeta. lia.
Qed.

Lemma split_has_word (s : JsString) :
  forall inRun current,
    nonEmpty current = true
    \/ (exists u, In u s /\ isWhiteSpace u = false) ->
    1 <= Z.of_nat (List.length
                     (filter nonEmpty (split_whitespace inRun current s))).
Proof.
  induction s as [|u rest IH]; intros inRun current H.
  - destruct H as [H|(u & [] & _)].
    cbn [split_whitespace filter]. rewrite nonEmpty_rev, H. cbn. lia.
  - cbn [split_whitespace]. destruct (isWhiteSpace u) eqn:E.
    + assert (Hrest : nonEmpty current = true
                      \/ exists v, In v rest /\ isWhiteSpace v = false).
      { destruct H as [H|(v & [<-|Hv] & Ev)]; [now left | congruence|].
        right. now exists v. }
      destruct inRun; [now apply IH|].
      cbn [filter]. rewrite nonEmpty_rev.
      destruct (nonEmpty current) eqn:Ec.
      * cbn [List.length]. lia.
      * apply IH. destruct Hrest as [Hc|Hr]; [discriminate | now right].
    + apply IH. now left.
Qed.

Lemma matching_char_exists (n : nat) :
  forall text,
    (List.length text <= n)%nat ->
    (exists u, In u text /\ isChineseOrPunctuation u = true) ->
    1 <= Z.of_nat (List.length
                     (filter (fun char => test isChinese char
                                          || test isPunctuation char)
                             (codePoints text))).
Proof.
  assert (Hone : forall u, isChineseOrPunctuation u = true ->
                           forall g, In u g ->
                           test isChinese g || test isPunctuation g = true).
  { intros u Hu g Hin. unfold isChineseOrPunctuation in Hu.
    apply orb_true_iff in Hu. apply orb_true_iff. unfold test.
    destruct Hu as [Hu|Hu]; [left|right]; apply existsb_exists; eauto. }
  induction n as [|n IH]; intros text Hlen (u & Hin & Hu).
  - destruct text; [destruct Hin | cbn in Hlen; lia].
  - destruct text as [|hi [|lo rest]]; [destruct Hin| |].
    + destruct Hin as [<-|[]]. cbn [codePoints filter].
      rewrite (Hone hi Hu [hi]) by now left. cbn. lia.
    + rewrite codePoints_step.
      destruct (isHighSurrogate hi && isLowSurrogate lo).
      * cbn [filter].
        destruct (test isChinese [hi; lo] || test isPunctuation [hi; lo])
          eqn:Eg; [cbn [List.length]; lia|].
        apply IH; [cbn in Hlen; lia|].
        destruct Hin as [<-|[<-|Hin]].
        -- rewrite (Hone hi Hu [hi; lo]) in Eg; [discriminate | now left].
        -- rewrite (Hone lo Hu [hi; lo]) in Eg;
             [discriminate | right; now left].
        -- now exists u.
      * cbn [filter].
        destruct (test isChinese [hi] || test isPunctuation [hi])
          eqn:Eg; [cbn [List.length]; lia|].
        apply IH; [cbn in Hlen |- *; lia|].
        destruct Hin as [<-|Hin].
        -- rewrite (Hone hi Hu [hi]) in Eg; [discriminate | now left].
        -- now exists u.
Qed.

Lemma tokens_zero_iff (text : JsString) :
  calculateTokens text = 0 <-> calculateCharacters text = 0.
Proof.
  pose proof (tokens_le_characters text) as Hle.
  split; [|lia]. intros Hzero.
  destruct text as [|u0 rest0]; [reflexivity|].
  set (text := u0 :: rest0) in *.
  destruct (filter (fun u => negb (isWhiteSpace u)) text) as [|u l] eqn:Ef.
  { unfold calculateCharacters. subst text. cbv zeta. now rewrite Ef. }
  exfalso.
  assert (Hu : In u text /\ isWhiteSpace u = false).
  { assert (Hin : In u (filter (fun u => negb (isWhiteSpace u)) text))
      by (rewrite Ef; now left).
    apply filter_In in Hin. destruct Hin as [Hin Hns].
    split; [exact Hin | now apply negb_true_iff]. }
  destruct Hu as [Hin Hns].
  unfold calculateTokens in Hzero. fold text in Hzero. cbv zeta in Hzero.
  assert (Hsome :
            1 <= Z.of_nat (List.length
                             (filter (fun char => test isChinese char
                                                  || test isPunctuation char)
                                     (codePoints text)))
            \/ 1 <= Z.of_nat
                      (List.length
                         (filter nonEmpty
                            (split (map (fun u => if isChineseOrPunctuation u
                                                  then 0x20 else u) text))))).
  { destruct (isChineseOrPunctuation u) eqn:Ec.
    - left. apply (matching_char_exists (List.length text)); [lia|].
      now exists u.
    - right. apply split_has_word. right. exists u. split; [|exact Hns].
      apply in_map_iff. exists u. now rewrite Ec. }
  subst text. cbv zeta in Hzero. lia.
Qed.

Lemma fold_sum (g : JsString -> Z) (texts : list JsString) (acc : Z) :
  fold_left (fun sum text => sum + g text) texts acc
  = acc + fold_left (fun sum text => sum + g text) texts 0.
Proof.
  revert acc. induction texts as [|t l IH]; intros acc; cbn; [lia|].
  rewrite IH, (IH (g t)). lia.
Qed.

(** X16.  A text never has more tokens than characters: every token of
    [calculateTokens] (a Chinese character, a punctuation mark of the
    class, or a word) accounts for at least one code unit that is not white
    space, which is what [calculateCharacters] counts; and a text has no
    token exactly when it has no such unit.  Both counts are 0 for the
    empty string, and the totals of [calculateTextStatistics] satisfy the
    same inequality. *)
Theorem tokens_never_exceed_characters
        (text : JsString) (texts : list JsString) :
  0 <= calculateTokens text <= calculateCharacters text
  /\ (calculateTokens text = 0 <-> calculateCharacters text = 0)
  /\ calculateCharacters text <= Z.of_nat (List.length text)
  /\ calculateTokens [] = 0
  /\ calculateCharacters [] = 0
  /\ 0 <= totalTokens (calculateTextStatistics texts)
          <= totalCharacters (calculateTextStatistics texts).
Proof.
  split; [apply tokens_le_characters|].
  split; [apply tokens_zero_iff|].
  split.
  { destruct text as [|u rest]; [cbn; lia|].
    unfold calculateCharacters.
    pose proof (filter_length_le (fun u => negb (isWhiteSpace u)) (u :: rest)).
    lia. }
  split; [reflexivity|]. split; [reflexivity|].
  cbn [calculateTextStatistics totalTokens totalCharacters].
  induction texts as [|t l IH]; [cbn; lia|].
  cbn [fold_left]. rewrite (fold_sum calculateTokens l),
    (fold_sum calculateCharacters l).
  pose proof (tokens_le_characters t). cbn. lia.
Qed.

(** X17.  The statistics of two lists of texts put together are the sums
    of their statistics, field by field; the count of texts is the length
    of the list. *)
Theorem statistics_are_additive (texts more : list JsString) :
  let whole := calculateTextStatistics (texts ++ more) in
  let a := calculateTextStatistics texts in
  let b := calculateTextStatistics more in
  textCount whole = textCount a + textCount b
  /\ totalCharacters whole = totalCharacters a + totalCharacters b
  /\ totalTokens whole = totalTokens a + totalTokens b
  /\ textCount a = Z.of_nat (List.length texts).
Proof.
  cbv zeta. unfold calculateTextStatistics. cbn [textCount totalCharacters
                                                   totalTokens].
  rewrite length_app, !fold_left_app.
  rewrite (fold_sum calculateCharacters more), (fold_sum calculateTokens more).
  repeat split; lia.
Qed.

End TextFacts.


(** * Properties of the inbound path *)

Module InboundFacts.
Import Transport Home.

Lemma receive_step (s : Service) (cb : Callback) (m : Inbound)
      (now : float) (st : Results) :
  onTranscription (callbacks s) = Some cb ->
  receive s m now st
  = fold_left
      (fun st data =>
         onTranscriptionResult now (text data) (refined_text data)
                               (translation data) (timestamp data) st)
      (transcriptionData m) st.
Proof.
  intros Hcb. unfold receive, handleMessage, transcriptionData.
  destruct m as [| | |data]; try reflexivity.
  rewrite Hcb.
  destruct (eventIs "transcription" data && truthyValue (text data));
    [reflexivity|].
  destruct (eventIs "error" data); [|reflexivity].
  now destruct (onError (callbacks s)).
Qed.

Lemma receive_without_callback (s : Service) (m : Inbound)
      (now : float) (st : Results) :
  onTranscription (callbacks s) = None ->
  receive s m now st = st.
Proof.
  intros Hcb. unfold receive, handleMessage.
  destruct m as [| | |data]; try reflexivity. rewrite Hcb.
  destruct (eventIs "transcription" data && truthyValue (text data));
    destruct (eventIs "error" data); try reflexivity;
    now destruct (onError (callbacks s)).
Qed.

Lemma transcriptionData_cases (m : Inbound) :
  transcriptionData m = []
  \/ exists data, transcriptionData m = [data]
                  /\ m = Parsed data
                  /\ eventIs "transcription" data = true
                  /\ truthyValue (text data) = true.
Proof.
  unfold transcriptionData. destruct m as [| | |data]; auto.
  destruct (eventIs "transcription" data) eqn:Ee; cbn [andb]; auto.
  destruct (truthyValue (text data)) eqn:Et; auto.
  right. exists data. auto.
Qed.

(** The page after the messages, as one fold over the transcriptions. *)
Lemma receive_all_fold (s : Service) (cb : Callback)
      (ms : list (Inbound * float)) (st : Results) :
  onTranscription (callbacks s) = Some cb ->
  receive_all s ms st
  = fold_left
      (fun st d =>
         onTranscriptionResult (snd d) (text (fst d)) (refined_text (fst d))
                               (translation (fst d)) (timestamp (fst d)) st)
      (transcriptionsOf ms) st.
Proof.
  intros Hcb. revert st.
  induction ms as [|[m now] ms IH]; intros st; [reflexivity|].
  unfold receive_all, transcriptionsOf in *.
  cbn [fold_left flat_map fst snd].
  rewrite fold_left_app, (receive_step s cb m now st Hcb), IH.
  f_equal.
  destruct (transcriptionData_cases m) as [->|(data & -> & _)]; reflexivity.
Qed.

Lemma receive_all_without_callback (s : Service)
      (ms : list (Inbound * float)) (st : Results) :
  onTranscription (callbacks s) = None ->
  receive_all s ms st = st.
Proof.
  intros Hcb. revert st.
  induction ms as [|m ms IH]; intros st; [reflexivity|].
  unfold receive_all in *. cbn [fold_left].
  now rewrite receive_without_callback.
Qed.

(** The arrays after a run of calls of the page's callback. *)
Lemma page_fold (ds : list (MessageData * float)) (st : Results) :
  let st' :=
    fold_left
      (fun st d =>
         onTranscriptionResult (snd d) (text (fst d)) (refined_text (fst d))
                               (translation (fst d)) (timestamp (fst d)) st)
      ds st in
  st' = mkResults
          (transcriptions st ++ map (fun d => text (fst d)) ds)
          (refinedTranscriptions st
             ++ map (fun d => orElse (refined_text (fst d)) (VString "")) ds)
          (translations st
             ++ map (fun d => orElse (translation (fst d)) (VString "")) ds)
          (timestamps st
             ++ map (fun d => orElse (timestamp (fst d)) (VNumber (snd d))) ds)
          (isKeywordMatches st ++ map (fun _ => VBool false) ds)
          (isContinuations st ++ map (fun _ => VBool false) ds)
          (continuationReasons st ++ map (fun _ => VString "") ds)
          (matchedKeywordsList st ++ map (fun _ => VArray []) ds)
          (matchReasons st ++ map (fun _ => VString "") ds).
Proof.
  cbv zeta. revert st.
  induction ds as [|d ds IH]; intros st.
  - destruct st; cbn; now rewrite !app_nil_r.
  - cbn [fold_left map]. rewrite IH.
    unfold onTranscriptionResult, handleTranscriptionResult.
    cbn [transcriptions refinedTranscriptions translations timestamps
         isKeywordMatches isContinuations continuationReasons
         matchedKeywordsList matchReasons orElse truthyValue].
    now rewrite <- !app_assoc.
Qed.

(** X18.  From the socket to the page, through the recorder's callback,
    whose guard reads the initial value of [isMountedRef] and so never
    blocks.  With a transcription callback
    registered, the messages of a session add to every result array of the
    page exactly one entry per transcription event with a truthy text, in
    the order of receipt, and nothing for any other message (unparsable
    text, other events, transcriptions with an empty or missing text): the
    texts are appended unchanged, a missing or empty refined text or
    translation becomes the empty string, a missing or zero timestamp the
    clock reading at the arrival, and the five keyword arrays get their
    defaults; result arrays
    that were aligned stay aligned.  With no transcription callback
    registered the page does not change. *)
Theorem results_follow_the_messages
        (s : Service) (ms : list (Inbound * float)) (st : Results) :
  let st' := receive_all s ms st in
  let delivered :=
    match onTranscription (callbacks s) with
    | Some _ => transcriptionsOf ms
    | None => []
    end in
  st' = mkResults
             (transcriptions st ++ map (fun d => text (fst d)) delivered)
             (refinedTranscriptions st
                ++ map (fun d => orElse (refined_text (fst d)) (VString ""))
                       delivered)
             (translations st
                ++ map (fun d => orElse (translation (fst d)) (VString ""))
                       delivered)
             (timestamps st
                ++ map (fun d => orElse (timestamp (fst d)) (VNumber (snd d)))
                       delivered)
             (isKeywordMatches st ++ map (fun _ => VBool false) delivered)
             (isContinuations st ++ map (fun _ => VBool false) delivered)
             (continuationReasons st ++ map (fun _ => VString "") delivered)
             (matchedKeywordsList st ++ map (fun _ => VArray []) delivered)
             (matchReasons st ++ map (fun _ => VString "") delivered)
  /\ Forall (fun d => eventIs "transcription" (fst d) = true
                      /\ truthyValue (text (fst d)) = true
                      /\ In (Parsed (fst d), snd d) ms)
            (transcriptionsOf ms)
  /\ (forall m now, In (m, now) ms ->
        match m with
        | Parsed data =>
            eventIs "transcription" data = true ->
            truthyValue (text data) = true ->
            In (data, now) (transcriptionsOf ms)
        | _ => True
        end)
  /\ (aligned st -> aligned st')
  /\ (onTranscription (callbacks s) = None -> st' = st).
Proof.
  cbv zeta.
  assert (Hst : receive_all s ms st
                = fold_left
                    (fun st d =>
                       onTranscriptionResult
                         (snd d) (text (fst d)) (refined_text (fst d))
                         (translation (fst d)) (timestamp (fst d)) st)
                    match onTranscription (callbacks s) with
                    | Some _ => transcriptionsOf ms
                    | None => []
                    end st).
  { destruct (onTranscription (callbacks s)) as [cb|] eqn:Hcb.
    - now apply (receive_all_fold s cb).
    - now apply receive_all_without_callback. }
  split; [rewrite Hst; apply page_fold|].
  split.
  { unfold transcriptionsOf. apply Forall_flat_map. apply Forall_forall.
    intros [m now] Hin. cbn [fst snd].
    destruct (transcriptionData_cases m) as [->|(data & -> & -> & He & Ht)];
      constructor; [|constructor].
    cbn [fst snd]. auto. }
  split.
  { intros m now Hin. destruct m as [| | |data]; try exact I.
    intros He Ht. unfold transcriptionsOf. apply in_flat_map.
    exists (Parsed data, now). split; [exact Hin|].
    unfold transcriptionData. cbn [fst snd]. rewrite He, Ht. now left. }
  split.
  { intros Hal. rewrite Hst, page_fold. unfold aligned in *.
    cbn [transcriptions refinedTranscriptions translations timestamps
         isKeywordMatches isContinuations continuationReasons
         matchedKeywordsList matchReasons].
    rewrite !length_app, !length_map. intuition congruence. }
  intros Hcb. now apply receive_all_without_callback.
Qed.

Lemma results_follow_the_messages_example :
  transcriptions
    (receive_all Scenario.connected
       [(Parsed (mkMessageData (VString "transcription") (VString "hello")
                               VUndefined VUndefined VUndefined VUndefined),
         1%float);
        (Unparsable, 2%float);
        (Parsed (mkMessageData (VString "transcription") (VString "")
                               VUndefined VUndefined VUndefined VUndefined),
         3%float)]
       noResults)
  = [VString "hello"].
Proof.
  pose proof (results_follow_the_messages
                Scenario.connected
                [(Parsed (mkMessageData (VString "transcription")
                                        (VString "hello")
                                        VUndefined VUndefined VUndefined
                                        VUndefined),
                  1%float);
                 (Unparsable, 2%float);
                 (Parsed (mkMessageData (VString "transcription")
                                        (VString "")
                                        VUndefined VUndefined VUndefined
                                        VUndefined),
                  3%float)]
                noResults) as H.
  cbv zeta in H. destruct H as (H & _).
  rewrite H. reflexivity.
Defined.

End InboundFacts.
